(** * nbval.cover: coverage of code run inside a notebook kernel

    A shallow embedding of [src/nbval/cover.py].  The module starts a
    coverage recorder inside a Jupyter kernel ([setup_coverage]), stops it
    ([teardown_coverage]) and merges the data file the kernel wrote into the
    recorder of pytest-cov running in the test process
    ([_merge_nbval_coverage_data]).

    The Python code is effectful: it mutates the host recorder object, reads
    and removes files, sends code to the kernel and emits warnings.  It is
    embedded in a state-and-exception monad [Py] over an explicit [World]
    (object store, file system, kernel, trace of observable events).  A raised
    exception keeps the mutations made before it, as in Python. *)

From Stdlib Require Import String Ascii List Bool.
From stdpp Require Import base option functions gmap strings list.
Import ListNotations.

Local Open Scope string_scope.
Local Open Scope list_scope.

(** ** Collaborators outside the repository

    [cover.py] calls the Python runtime ([os], [os.path], [repr]), the
    [coverage] package and the kernel client.  None of them is part of the
    repository; each is an interface here, and the functions of [cover.py]
    are written against the interfaces. *)

(** The Python runtime of the test process.  [getcwd] is [os.getcwd()],
    [path_join] is [os.path.join], [abspath] is [os.path.abspath], [repr_str]
    is [repr] on a [str].  [resolve] is the file a path names for the
    operating system when a file is opened or removed; the working directory
    does not change while [cover.py] runs.  [remove_refused] tells the files
    [os.remove] refuses to remove with an [OSError] other than "no such file"
    (no permission, a directory).  The two laws are the facts about
    [os.path] the proofs use: a path and its absolute form name the same
    file, and joining onto the empty path is relative to the working
    directory. *)
Class PyRuntime := {
  getcwd : string;
  path_join : string -> string -> string;
  abspath : string -> string;
  resolve : string -> string;
  remove_refused : string -> bool;
  repr_str : string -> string;
  resolve_abspath : forall p, resolve (abspath p) = resolve p;
  abspath_join_empty : forall p,
    abspath (path_join EmptyString p) = abspath (path_join getcwd p)
}.

(** The [coverage] package (4.x API): [CoverageData] objects, created by
    [coverage.CoverageData(debug=...)], filled by [read_file] (which raises
    [CoverageException] on a missing or malformed file: [data_parse] returns
    [None]) and merged by [update(other, aliases=...)].  [update] can raise
    [CoverageException] (line data meeting arc data, conflicting file
    tracers): [update_raises] tells when, and [data_update] is the dataset the
    call leaves, which after a raise may be partly updated.  A [PathAliases]
    object is the sequence of [(pattern, result)] pairs added to it; its
    [add] raises [CoverageException] on a pattern it rejects (one that ends
    in a wildcard): [pattern_rejected]. *)
Class CoveragePy := {
  CoverageData : Type;
  DebugControl : Type;
  CoverageData_new : DebugControl -> CoverageData;
  data_parse : CoverageData -> string -> option CoverageData;
  data_update :
    CoverageData -> CoverageData -> option (list (string * string)) -> CoverageData;
  update_raises :
    CoverageData -> CoverageData -> option (list (string * string)) -> bool;
  pattern_rejected : string -> bool
}.

(** The kernel: an out-of-process runtime reached through the kernel client.
    [kc_execute] is what submitting a snippet does to the kernel and to the
    files on disk, and the message id it returns; [idle_within] tells whether
    the kernel reports idle for that request within the timeout. *)
Class KernelChannel := {
  RemoteState : Type;
  MsgId : Type;
  kc_execute :
    string -> RemoteState -> gmap string string ->
    MsgId * RemoteState * gmap string string;
  idle_within : MsgId -> nat -> RemoteState -> bool
}.

(** ** Python values that are formatted into the injected code *)

Inductive PyVal :=
| PyNone
| PyBool (b : bool)
| PyStr (s : string)
| PyList (l : list string).

(** The value of [data_suffix] once resolved: [True] or a [str]. *)
Inductive Suffix :=
| SuffixTrue
| SuffixStr (s : string).

Definition Suffix_to_PyVal (s : Suffix) : PyVal :=
  match s with
  | SuffixTrue => PyBool true
  | SuffixStr s => PyStr s
  end.

Inductive Exn :=
| CoverageException
| IndexError
| KeyError
| AttributeError
| TypeError
| OSError
| ExecutionTimeout.

Inductive Outcome (A : Type) :=
| Returns (a : A)
| Raises (e : Exn).
Arguments Returns {A} a.
Arguments Raises {A} e.

Definition dquote : string := String (ascii_of_nat 34) EmptyString.

Section Cover.

Context {RT : PyRuntime} {CP : CoveragePy} {KC : KernelChannel}.

(** The location descriptor handed to [config.warn]: the path of the
    notebook under test, or [None]. *)
Definition Floc : Type := option string.

(** *** The host recorder, as pytest-cov holds it *)

(** [cov.config]: the configured data file and the [[paths]] section, a
    dict from a name to a list of paths, in insertion order. *)
Record CoverageConfig := {
  data_file : string;
  paths : list (string * list string)
}.

(** [cov.data_files] *)
Record CoverageDataFiles := {
  filename : string
}.

(** A [coverage.Coverage] object.  [data_suffix] is [None], [True] or a
    [str]. *)
Record Coverage := {
  config : CoverageConfig;
  data_files : CoverageDataFiles;
  data_suffix : option Suffix;
  debug : DebugControl;
  data : CoverageData;
  _warn_no_data : bool
}.

(** Objects are held by reference. *)
Definition Ref := nat.

(** pytest-cov: the plugin registered as ['_cov'], its controller and the
    controller's recorder. *)
Record CovController := {
  cov : option Ref
}.

Record CovPlugin := {
  cov_controller : option CovController
}.

(** [config.option] *)
Record Options := {
  cov_source : PyVal;
  cov_config : PyVal
}.

(** The pytest configuration object. *)
Record Config := {
  opts : Options;
  pluginmanager : gmap string CovPlugin
}.

Record Kernel := {
  language : string
}.

(** *** The world *)

Inductive Event :=
| Warned (code msg : string) (floc : Floc)
| Executed (cmd : string) (stop_on_error : option bool)
| Awaited (msg_id : MsgId) (timeout : nat)
| FileRead (path : string)
| FileRemoved (path : string).

Record World := {
  heap : Ref -> Coverage;
  files : gmap string string;
  remote : RemoteState;
  trace : list Event
}.

Definition set_heap (h : Ref -> Coverage) (w : World) : World :=
  {| heap := h; files := files w; remote := remote w; trace := trace w |}.

Definition set_files (f : gmap string string) (w : World) : World :=
  {| heap := heap w; files := f; remote := remote w; trace := trace w |}.

Definition set_remote (r : RemoteState) (w : World) : World :=
  {| heap := heap w; files := files w; remote := r; trace := trace w |}.

Definition emit (e : Event) (w : World) : World :=
  {| heap := heap w; files := files w; remote := remote w;
     trace := trace w ++ [e] |}.

(** *** The monad *)

Definition Py (A : Type) : Type := World -> Outcome A * World.

Definition ret {A} (a : A) : Py A := fun w => (Returns a, w).

Definition bind {A B} (m : Py A) (k : A -> Py B) : Py B :=
  fun w =>
    match m w with
    | (Returns a, w') => k a w'
    | (Raises e, w') => (Raises e, w')
    end.

Definition raise {A} (e : Exn) : Py A := fun w => (Raises e, w).

(** [try: m] with the outcome handed to the handler. *)
Definition attempt {A} (m : Py A) : Py (Outcome A) :=
  fun w => let '(o, w') := m w in (Returns o, w').

Definition modify (f : World -> World) : Py unit := fun w => (Returns tt, f w).

Local Notation "'let*' x ':=' m 'in' k" := (bind m (fun x => k))
  (at level 10, x name, m at level 200, k at level 200).
Local Notation "m ;; k" := (bind m (fun _ => k))
  (at level 100, k at level 200, right associativity).

(** *** Primitive operations *)

(** Attribute read [cov.f]. *)
Definition getattr {A} (r : Ref) (f : Coverage -> A) : Py A :=
  fun w => (Returns (f (heap w r)), w).

Definition with_warn_no_data (b : bool) (c : Coverage) : Coverage :=
  {| config := config c; data_files := data_files c;
     data_suffix := data_suffix c; debug := debug c; data := data c;
     _warn_no_data := b |}.

Definition with_data (d : CoverageData) (c : Coverage) : Coverage :=
  {| config := config c; data_files := data_files c;
     data_suffix := data_suffix c; debug := debug c; data := d;
     _warn_no_data := _warn_no_data c |}.

(** [cov._warn_no_data = b]; on [None] the assignment raises. *)
Definition set_warn_no_data (cov : option Ref) (b : bool) : Py unit :=
  match cov with
  | Some r =>
      modify (fun w => set_heap (<[r := with_warn_no_data b (heap w r)]> (heap w)) w)
  | None => raise AttributeError
  end.

(** [cov.data.update(other, aliases=aliases)]: merges in place, and raises
    [CoverageException] when the two datasets cannot be combined. *)
Definition update (r : Ref) (other : CoverageData)
    (aliases : option (list (string * string))) : Py unit :=
  fun w =>
    let c := heap w r in
    (if update_raises (data c) other aliases then Raises CoverageException
     else Returns tt,
     set_heap (<[r := with_data (data_update (data c) other aliases) c]> (heap w)) w).

(** [aliases.add(pattern, result)] *)
Definition aliases_add (aliases : list (string * string)) (pattern result : string)
    : Py (list (string * string)) :=
  if pattern_rejected pattern then raise CoverageException
  else ret (aliases ++ [(pattern, result)]).

(** [d.read_file(path)]: the file is opened and parsed into [d]; every
    failure to do so is a [CoverageException]. *)
Definition read_file (d : CoverageData) (path : string) : Py CoverageData :=
  fun w =>
    let w' := emit (FileRead path) w in
    match files w !! resolve path with
    | Some content =>
        match data_parse d content with
        | Some d' => (Returns d', w')
        | None => (Raises CoverageException, w')
        end
    | None => (Raises CoverageException, w')
    end.

(** [coverage.misc.file_be_gone(path)]: remove the file, and do not mind
    when it is not there; any other [OSError] of [os.remove] is raised
    again. *)
Definition file_be_gone (path : string) : Py unit :=
  fun w =>
    match files w !! resolve path with
    | Some _ =>
        if remove_refused (resolve path) then (Raises OSError, w)
        else
          (Returns tt,
           emit (FileRemoved path) (set_files (delete (resolve path) (files w)) w))
    | None => (Returns tt, w)
    end.

(** [config.warn(code, message, fslocation)] *)
Definition warn (conf : Config) (code msg : string) (floc : Floc) : Py unit :=
  modify (emit (Warned code msg floc)).

(** [kernel.kc.execute(cmd, stop_on_error=...)] *)
Definition execute (kernel : Kernel) (cmd : string) (stop_on_error : option bool)
    : Py MsgId :=
  fun w =>
    let '(msg_id, r, f) := kc_execute cmd (remote w) (files w) in
    (Returns msg_id, emit (Executed cmd stop_on_error) (set_files f (set_remote r w))).

(** [kernel.await_idle(msg_id, timeout)]: raises when the kernel does not
    become idle in time. *)
Definition await_idle (kernel : Kernel) (msg_id : MsgId) (timeout : nat) : Py unit :=
  fun w =>
    (if idle_within msg_id timeout (remote w) then Returns tt
     else Raises ExecutionTimeout,
     emit (Awaited msg_id timeout) w).

Definition hasplugin (pm : gmap string CovPlugin) (name : string) : bool :=
  bool_decide (is_Some (pm !! name)).

(** [getplugin] of older pytest raises on an unknown name. *)
Definition getplugin (pm : gmap string CovPlugin) (name : string) : Py CovPlugin :=
  match pm !! name with
  | Some p => ret p
  | None => raise KeyError
  end.

(** [repr(v)] and [str(v)] *)
Definition repr (v : PyVal) : string :=
  match v with
  | PyNone => "None"
  | PyBool true => "True"
  | PyBool false => "False"
  | PyStr s => repr_str s
  | PyList l => "[" +:+ String.concat ", " (map repr_str l) +:+ "]"
  end.

Definition str (v : PyVal) : string :=
  match v with
  | PyStr s => s
  | _ => repr v
  end.

(** [template % args] for the directives [%r], [%s] and [%%]. *)
Fixpoint format (template : string) (args : list PyVal) : option string :=
  match template with
  | EmptyString =>
      match args with
      | [] => Some EmptyString
      | _ :: _ => None
      end
  | String "%" (String d rest) =>
      if Ascii.eqb d "%" then String "%" <$> format rest args
      else
        match args with
        | [] => None
        | a :: args' =>
            if Ascii.eqb d "r" then (fun s => repr a +:+ s) <$> format rest args'
            else if Ascii.eqb d "s" then (fun s => str a +:+ s) <$> format rest args'
            else None
        end
  | String c rest => String c <$> format rest args
  end.

Definition py_format (template : string) (args : list PyVal) : Py string :=
  match format template args with
  | Some s => ret s
  | None => raise TypeError
  end.

(** [a or b] on an optional string: [None] and the empty string are false. *)
Definition py_or (a : option string) (b : string) : string :=
  match a with
  | Some (String c s) => String c s
  | Some EmptyString | None => b
  end.

(** *** cover.py *)

Definition _python_setup : string :=
"import coverage

__cov = coverage.Coverage(
    data_file=%r,
    source=%r,
    config_file=%r,
    auto_data=True,
    data_suffix=%r,
    )
__cov.load()
__cov.start()
__cov._warn_no_data = False
__cov._warn_unimported_source = False
".

Definition _python_teardown : string :=
"__cov.stop()
__cov.save()
".

(** Returns the coverage object of pytest-cov. *)
Definition get_cov (conf : Config) : Py (option Ref) :=
  if hasplugin (pluginmanager conf) "_cov" then
    let* plugin := getplugin (pluginmanager conf) "_cov" in
    match cov_controller plugin with
    | Some ctl => ret (cov ctl)
    | None => ret None
    end
  else ret None.

(** Create a suffix for nbval data file depending on pytest-cov config. *)
Definition _make_suffix (cov : option Ref) : Py Suffix :=
  match cov with
  | Some c =>
      let* ds := getattr c data_suffix in
      match ds with
      | Some SuffixTrue => ret SuffixTrue
      | Some (SuffixStr s) => ret (SuffixStr (s +:+ ".nbval"))
      | None => ret (SuffixStr "nbval")
      end
  | None => ret (SuffixStr "nbval")
  end.

(** The inner loop: [for pattern in paths[1:]: aliases.add(pattern, result)]. *)
Fixpoint add_patterns (patterns : list string) (result : string)
    (aliases : list (string * string)) : Py (list (string * string)) :=
  match patterns with
  | [] => ret aliases
  | pattern :: patterns' =>
      let* aliases' := aliases_add aliases pattern result in
      add_patterns patterns' result aliases'
  end.

(** The alias loop: for every entry of [cov.config.paths], the first path is
    the result and each later one a pattern; [paths[0]] raises on []. *)
Fixpoint add_aliases (values : list (list string)) (aliases : list (string * string))
    : Py (list (string * string)) :=
  match values with
  | [] => ret aliases
  | ps :: values' =>
      match ps with
      | [] => raise IndexError
      | result :: patterns =>
          let* aliases' := add_patterns patterns result aliases in
          add_aliases values' aliases'
      end
  end.

(** Merge nbval coverage data into pytest-cov data. *)
Definition _merge_nbval_coverage_data (cov : option Ref) : Py unit :=
  match cov with
  | None => ret tt
  | Some c =>
      let* suffix := _make_suffix cov in
      match suffix with
      | SuffixTrue => ret tt
      | SuffixStr suffix =>
          let* base := getattr c (fun o => filename (data_files o)) in
          let filename := base +:+ "." +:+ suffix in
          let* dbg := getattr c debug in
          let nbval_data := CoverageData_new dbg in
          let* r := attempt (read_file nbval_data (abspath filename)) in
          match r with
          | Raises CoverageException => ret tt
          | Raises e => raise e
          | Returns nbval_data =>
              let* cpaths := getattr c (fun o => paths (config o)) in
              let* aliases :=
                match cpaths with
                | [] => ret None
                | _ :: _ =>
                    let* al := add_aliases (map snd cpaths) [] in
                    ret (Some al)
                end in
              update c nbval_data aliases ;;
              file_be_gone filename
          end
      end
  end.

(** Start coverage reporting in kernel. *)
Definition setup_coverage (conf : Config) (kernel : Kernel) (floc : Floc)
    (output_loc : option string) : Py unit :=
  let language := language kernel in
  if String.prefix "python" language then
    let* cov := get_cov conf in
    let* data_file :=
      match cov with
      | Some c =>
          let* df := getattr c (fun o => data_file (config o)) in
          ret (abspath df)
      | None => ret (abspath (path_join (py_or output_loc getcwd) ".coverage"))
      end in
    let source := cov_source (opts conf) in
    let config_file := cov_config (opts conf) in
    let* suffix := _make_suffix cov in
    match suffix with
    | SuffixTrue => set_warn_no_data cov false
    | SuffixStr _ => ret tt
    end ;;
    let* cmd :=
      py_format _python_setup
        [PyStr data_file; source; config_file; Suffix_to_PyVal suffix] in
    let* msg_id := execute kernel cmd (Some false) in
    await_idle kernel msg_id 60
  else
    let* msg :=
      py_format
        ("Coverage currently not supported for language " +:+ dquote +:+ "%s"
         +:+ dquote +:+ ".")
        [PyStr language] in
    warn conf "C1" msg floc.

(** Finish coverage reporting in kernel.  [output_loc] is not used. *)
Definition teardown_coverage (conf : Config) (kernel : Kernel)
    (output_loc : option string) : Py unit :=
  let language := language kernel in
  if String.prefix "python" language then
    let* msg_id := execute kernel _python_teardown None in
    await_idle kernel msg_id 60 ;;
    let* cov := get_cov conf in
    _merge_nbval_coverage_data cov
  else
    ret tt.

End Cover.

(** ** Vocabulary of the statements *)

Section Vocabulary.

Context {RT : PyRuntime} {CP : CoveragePy} {KC : KernelChannel}.

(** The recorder of pytest-cov, when the plugin is registered, has a
    controller and the controller has a recorder. *)
Definition host_recorder (conf : Config) : option Ref :=
  match pluginmanager conf !! "_cov" with
  | Some plugin =>
      match cov_controller plugin with
      | Some controller => cov controller
      | None => None
      end
  | None => None
  end.

(** The language check of [setup_coverage] and [teardown_coverage]. *)
Definition supported (kernel : Kernel) : bool :=
  String.prefix "python" (language kernel).

(** The path [_merge_nbval_coverage_data] computes for the data file of the
    kernel, for a recorder [c] and a resolved suffix. *)
Definition remote_filename (c : Coverage) (suffix : string) : string :=
  filename (data_files c) +:+ "." +:+ suffix.

(** What a read of [path] yields in a world: the dataset of the file, or
    [None] when the file is missing or does not parse. *)
Definition stored_data (w : World) (d : CoverageData) (path : string)
    : option CoverageData :=
  files w !! resolve path ≫= data_parse d.

(** The alias table of a [[paths]] section, as the specification words it:
    no table when there are no rules; otherwise every path after the first of
    a rule is a pattern that maps to the first. *)
Definition alias_pairs (values : list (list string)) : list (string * string) :=
  flat_map (fun ps =>
              match ps with
              | [] => []
              | result :: patterns => map (fun pattern => (pattern, result)) patterns
              end) values.

Definition alias_table (cpaths : list (string * list string))
    : option (list (string * string)) :=
  match cpaths with
  | [] => None
  | _ :: _ => Some (alias_pairs (map snd cpaths))
  end.

(** Every rule of the [[paths]] section names at least one path. *)
Definition rules_nonempty (cpaths : list (string * list string)) : Prop :=
  Forall (fun rule => snd rule <> []) cpaths.

(** A rule the alias loop passes: it names a path, and [PathAliases.add]
    accepts every path after the first. *)
Definition rule_accepted (ps : list string) : Prop :=
  ps <> [] /\ Forall (fun pattern => pattern_rejected pattern = false) (tail ps).

(** Every pattern of the [[paths]] section, that is every path of a rule
    after the first, is one [PathAliases.add] accepts. *)
Definition patterns_accepted (cpaths : list (string * list string)) : Prop :=
  Forall (fun rule => Forall (fun pattern => pattern_rejected pattern = false)
                        (tail (snd rule))) cpaths.

(** The world after the read of the dataset [d] and the update of recorder
    [r] with it, before the removal of the file. *)
Definition updated_world (r : Ref) (suffix : string) (d : CoverageData) (w : World)
    : World :=
  let c := heap w r in
  {| heap := <[r := with_data (data_update (data c) d (alias_table (paths (config c)))) c]>
               (heap w);
     files := files w;
     remote := remote w;
     trace := trace w ++ [FileRead (abspath (remote_filename c suffix))] |}.

(** The world after a merge of the dataset [d], read from the file of the
    kernel, into recorder [r]: the read and the removal are in the trace, the
    dataset of [r] is updated under the alias table, the file is gone. *)
Definition merged_world (r : Ref) (suffix : string) (d : CoverageData) (w : World)
    : World :=
  let c := heap w r in
  let fname := remote_filename c suffix in
  {| heap := <[r := with_data (data_update (data c) d (alias_table (paths (config c)))) c]>
               (heap w);
     files := delete (resolve fname) (files w);
     remote := remote w;
     trace := trace w ++ [FileRead (abspath fname); FileRemoved fname] |}.

(** The text [_python_setup % (data_file, source, config_file, suffix)]. *)
Definition setup_command (data_file : string) (source config_file suffix : PyVal)
    : string :=
"import coverage

__cov = coverage.Coverage(
    data_file=" +:+ repr (PyStr data_file) +:+ ",
    source=" +:+ repr source +:+ ",
    config_file=" +:+ repr config_file +:+ ",
    auto_data=True,
    data_suffix=" +:+ repr suffix +:+ ",
    )
__cov.load()
__cov.start()
__cov._warn_no_data = False
__cov._warn_unimported_source = False
".

(** The message of the warning for an unsupported language. *)
Definition unsupported_message (language : string) : string :=
  "Coverage currently not supported for language " +:+ dquote +:+ language
  +:+ dquote +:+ ".".

End Vocabulary.

(** ** A small concrete runtime

    The statements below hold for every runtime, coverage package and kernel.
    To run the functions on examples the interfaces are instantiated here:
    POSIX-like paths under the working directory [/work] (without
    normalisation of [.] and [..], files under [/readonly/] cannot be
    removed), data files that hold a marker character followed by the name
    of one measured file (a file named [#arcs] stands for arc data, which the
    update refuses), patterns rejected when they end in a star, and a kernel
    that is always idle and writes nothing. *)

Definition demo_isabs (p : string) : bool := String.prefix "/" p.

Fixpoint demo_endswith_sep (a : string) : bool :=
  match a with
  | EmptyString => false
  | String c EmptyString => Ascii.eqb c "/"
  | String _ rest => demo_endswith_sep rest
  end.

Definition demo_join (a b : string) : string :=
  if demo_isabs b then b
  else
    match a with
    | EmptyString => b
    | String _ _ => if demo_endswith_sep a then a +:+ b else a +:+ "/" +:+ b
    end.

Definition demo_abspath (p : string) : string :=
  if demo_isabs p then p else demo_join "/work" p.

Lemma demo_abspath_idem p : demo_abspath (demo_abspath p) = demo_abspath p.
Proof.
  unfold demo_abspath.
  destruct (demo_isabs p) eqn:Hp; [by rewrite Hp|].
  unfold demo_join. rewrite Hp. reflexivity.
Qed.

Lemma demo_abspath_join_empty p :
  demo_abspath (demo_join EmptyString p) = demo_abspath (demo_join "/work" p).
Proof.
  unfold demo_abspath, demo_join.
  destruct (demo_isabs p) eqn:Hp; rewrite ?Hp; reflexivity.
Qed.

Definition demo_runtime : PyRuntime := {|
  getcwd := "/work";
  path_join := demo_join;
  abspath := demo_abspath;
  resolve := demo_abspath;
  remove_refused := String.prefix "/readonly/";
  repr_str := fun s => "'" +:+ s +:+ "'";
  resolve_abspath := demo_abspath_idem;
  abspath_join_empty := demo_abspath_join_empty
|}.

Definition demo_rename (aliases : option (list (string * string))) (f : string)
    : string :=
  match aliases with
  | None => f
  | Some al =>
      match find (fun pr => String.eqb (fst pr) f) al with
      | Some pr => snd pr
      | None => f
      end
  end.

Fixpoint demo_endswith_star (pattern : string) : bool :=
  match pattern with
  | EmptyString => false
  | String c EmptyString => Ascii.eqb c "*"
  | String _ rest => demo_endswith_star rest
  end.

Definition demo_coverage : CoveragePy := {|
  CoverageData := list string;
  DebugControl := unit;
  CoverageData_new := fun _ => [];
  data_parse := fun d content =>
    match content with
    | String "!" name => Some (d ++ [name])
    | _ => None
    end;
  data_update := fun self other aliases =>
    if existsb (String.eqb "#arcs") other then self
    else self ++ map (demo_rename aliases) other;
  update_raises := fun self other aliases => existsb (String.eqb "#arcs") other;
  pattern_rejected := demo_endswith_star
|}.

Definition demo_kernel_channel : KernelChannel := {|
  RemoteState := unit;
  MsgId := nat;
  kc_execute := fun _ r f => (0, r, f);
  idle_within := fun _ _ _ => true
|}.

Section DemoWorld.

#[local] Existing Instances demo_runtime demo_coverage demo_kernel_channel.

(** A recorder with data file [/work/.coverage], the given suffix mode and
    [[paths]] rules, and one measured file so far. *)
Definition demo_recorder (ds : option Suffix) (cpaths : list (string * list string))
    : Coverage :=
  {| config := {| data_file := ".coverage"; paths := cpaths |};
     data_files := {| filename := "/work/.coverage" |};
     data_suffix := ds;
     debug := tt;
     data := ["host.py"];
     _warn_no_data := true |}.

Definition demo_world (ds : option Suffix) (cpaths : list (string * list string))
    (fs : gmap string string) : World :=
  {| heap := fun _ => demo_recorder ds cpaths;
     files := fs;
     remote := tt;
     trace := [] |}.

(** pytest with pytest-cov active: the recorder is object [0]. *)
Definition demo_config : Config :=
  {| opts := {| cov_source := PyList ["pkg"]; cov_config := PyStr ".coveragerc" |};
     pluginmanager := {[ "_cov" := {| cov_controller := Some {| cov := Some 0 |} |} ]} |}.

(** pytest without pytest-cov. *)
Definition demo_config_plain : Config :=
  {| opts := {| cov_source := PyNone; cov_config := PyNone |};
     pluginmanager := ∅ |}.

(** The kernel left the data of one measured file at [/work/.coverage.nbval];
    the recorder has no suffix and one alias rule. *)
Definition demo_world_ok : World :=
  demo_world None [("src", ["/src"; "/remote/src"])]
    {[ "/work/.coverage.nbval" := "!/remote/src" ]}.

(** The same, with a rule that names no path. *)
Definition demo_world_empty_rule : World :=
  demo_world None [("src", [])] {[ "/work/.coverage.nbval" := "!nb.py" ]}.

(** The data file holds arc data, which the update of the recorder refuses. *)
Definition demo_world_arcs : World :=
  demo_world None [("src", ["/src"; "/remote/src"])]
    {[ "/work/.coverage.nbval" := "!#arcs" ]}.

(** The data file is there and does not parse. *)
Definition demo_world_corrupt : World :=
  demo_world None [] {[ "/work/.coverage.nbval" := "garbage" ]}.

(** A recorder that auto-generates its suffix (parallel mode). *)
Definition demo_world_auto : World := demo_world (Some SuffixTrue) [] ∅.

(** A recorder with the suffix [par], and one with the empty suffix. *)
Definition demo_world_par : World := demo_world (Some (SuffixStr "par")) [] ∅.

Definition demo_world_empty_suffix : World :=
  demo_world (Some (SuffixStr EmptyString)) [] ∅.

End DemoWorld.

(** ** Vocabulary of whole calls

    One exchange with the kernel, as [setup_coverage] and [teardown_coverage]
    make it: a snippet is submitted, then the caller waits up to 60 seconds
    for the kernel to become idle. *)

Section Sessions.

Context {RT : PyRuntime} {CP : CoveragePy} {KC : KernelChannel}.

(** The world after the exchange: the kernel and the files are as the kernel
    left them, and the submission and the wait are in the trace. *)
Definition kernel_round (cmd : string) (stop_on_error : option bool) (w : World)
    : World :=
  let '(msg_id, rs, fs) := kc_execute cmd (remote w) (files w) in
  {| heap := heap w; files := fs; remote := rs;
     trace := trace w ++ [Executed cmd stop_on_error; Awaited msg_id 60] |}.

(** Whether the kernel becomes idle in time after the submission. *)
Definition kernel_idle (cmd : string) (w : World) : bool :=
  let '(msg_id, rs, _) := kc_execute cmd (remote w) (files w) in
  idle_within msg_id 60 rs.

(** The command [setup_coverage] builds in a world, for a configuration and
    an output location. *)
Definition setup_text (conf : Config) (output_loc : option string) (w : World)
    : string :=
  setup_command
    match host_recorder conf with
    | Some r => abspath (data_file (config (heap w r)))
    | None => abspath (path_join (py_or output_loc getcwd) ".coverage")
    end
    (cov_source (opts conf)) (cov_config (opts conf))
    (Suffix_to_PyVal
       match host_recorder conf with
       | Some r =>
           match data_suffix (heap w r) with
           | Some SuffixTrue => SuffixTrue
           | Some (SuffixStr s) => SuffixStr (s +:+ ".nbval")
           | None => SuffixStr "nbval"
           end
       | None => SuffixStr "nbval"
       end).

(** A rule of the [[paths]] section that names no path. *)
Definition has_empty_rule (cpaths : list (string * list string)) : Prop :=
  Exists (fun rule => snd rule = []) cpaths.

End Sessions.

(** A kernel for the examples whose state says whether it answers: it saves
    the data of one measured file to [/work/.coverage.nbval] when told to stop
    the recorder, and becomes idle only when it answers. *)
Definition demo_kernel_scripted : KernelChannel := {|
  RemoteState := bool;
  MsgId := nat;
  kc_execute := fun cmd rs fs =>
    (0, rs,
     if String.prefix "__cov.stop()" cmd
     then <[ "/work/.coverage.nbval" := "!/remote/src" ]> fs
     else fs);
  idle_within := fun _ _ rs => rs
|}.

Section DemoSessions.

#[local] Existing Instances demo_runtime demo_coverage demo_kernel_scripted.

(** A world of the scripted kernel: no file yet, one recorder with the given
    suffix mode and rules; [answers] tells whether the kernel answers. *)
Definition demo_session (answers : bool) (ds : option Suffix)
    (cpaths : list (string * list string)) : World :=
  {| heap := fun _ =>
       {| config := {| data_file := ".coverage"; paths := cpaths |};
          data_files := {| filename := "/work/.coverage" |};
          data_suffix := ds;
          debug := tt;
          data := ["host.py"];
          _warn_no_data := true |};
     files := ∅;
     remote := answers;
     trace := [] |}.

End DemoSessions.

(** ** Properties of cover.py *)

Section Properties.

Context {RT : PyRuntime} {CP : CoveragePy} {KC : KernelChannel}.

Implicit Types (w : World) (r : Ref) (conf : Config) (kernel : Kernel).

(** *** The suffix resolver *)

(** [_make_suffix] only reads: it returns a value and leaves the world as it
    found it. *)
Lemma make_suffix_run (ocov : option Ref) w :
  _make_suffix ocov w =
  (Returns
     match ocov with
     | Some r =>
         match data_suffix (heap w r) with
         | Some SuffixTrue => SuffixTrue
         | Some (SuffixStr s) => SuffixStr (s +:+ ".nbval")
         | None => SuffixStr "nbval"
         end
     | None => SuffixStr "nbval"
     end, w).
Proof.
  destruct ocov as [r|]; [|reflexivity].
  unfold _make_suffix, bind, getattr.
  destruct (data_suffix (heap w r)) as [[|s]|]; reflexivity.
Qed.

(** *** The merge engine, path by path *)

Lemma bind_returns {A B} (m : Py A) (k : A -> Py B) w (a : A) (w' : World) :
  m w = (Returns a, w') -> bind m k w = k a w'.
Proof. intros Hm. unfold bind. rewrite Hm. reflexivity. Qed.

(** A path and its absolute form hold the same data. *)
Lemma stored_data_abspath w (d : CoverageData) (path : string) :
  stored_data w d (abspath path) = stored_data w d path.
Proof. unfold stored_data. rewrite resolve_abspath. reflexivity. Qed.

(** The alias loop never touches the world; it returns the table of the
    rules, or raises at the first rule it cannot pass. *)
Lemma add_patterns_ok (patterns : list string) (result : string)
    (al : list (string * string)) w :
  Forall (fun pattern => pattern_rejected pattern = false) patterns ->
  add_patterns patterns result al w =
  (Returns (al ++ map (fun pattern => (pattern, result)) patterns), w).
Proof.
  intros Hok. revert al. induction Hok as [|p patterns Hp _ IH]; intros al; cbn.
  - rewrite app_nil_r. reflexivity.
  - unfold bind, aliases_add. rewrite Hp. cbn. rewrite IH, <- app_assoc. reflexivity.
Qed.

Lemma add_patterns_rejected (oks : list string) (p : string) (more : list string)
    (result : string) (al : list (string * string)) w :
  Forall (fun pattern => pattern_rejected pattern = false) oks ->
  pattern_rejected p = true ->
  add_patterns (oks ++ p :: more) result al w = (Raises CoverageException, w).
Proof.
  intros Hok Hp. revert al. induction Hok as [|q oks Hq _ IH]; intros al; cbn.
  - unfold bind, aliases_add. rewrite Hp. reflexivity.
  - unfold bind, aliases_add. rewrite Hq. cbn. apply IH.
Qed.

Lemma add_patterns_cases (patterns : list string) (result : string)
    (al : list (string * string)) w :
  Forall (fun pattern => pattern_rejected pattern = false) patterns
  \/ (Exists (fun pattern => pattern_rejected pattern = true) patterns
      /\ add_patterns patterns result al w = (Raises CoverageException, w)).
Proof.
  revert al. induction patterns as [|p patterns IH]; intros al.
  - left. constructor.
  - destruct (pattern_rejected p) eqn:Hp.
    + right. split; [by constructor|].
      cbn. unfold bind, aliases_add. rewrite Hp. reflexivity.
    + destruct (IH (al ++ [(p, result)])) as [Hok|[Hex Hrun]].
      * left. by constructor.
      * right. split; [by constructor 2|].
        cbn. unfold bind, aliases_add. rewrite Hp. exact Hrun.
Qed.

Lemma add_aliases_app (good rest : list (list string)) (al : list (string * string)) w :
  Forall rule_accepted good ->
  add_aliases (good ++ rest) al w = add_aliases rest (al ++ alias_pairs good) w.
Proof.
  intros Hgood. revert al.
  induction Hgood as [|ps good [Hne Hok] _ IH]; intros al; cbn.
  - rewrite app_nil_r. reflexivity.
  - destruct ps as [|result patterns]; [done|]. cbn in Hok.
    unfold bind. rewrite add_patterns_ok by done.
    rewrite IH. fold (alias_pairs good). rewrite app_assoc. reflexivity.
Qed.

Lemma add_aliases_ok (values : list (list string)) (al : list (string * string)) w :
  Forall rule_accepted values ->
  add_aliases values al w = (Returns (al ++ alias_pairs values), w).
Proof.
  intros Hok. rewrite <- (app_nil_r values) at 1.
  rewrite add_aliases_app by done. reflexivity.
Qed.

Lemma add_aliases_cases (values : list (list string)) (al : list (string * string)) w :
  (Forall rule_accepted values
   /\ add_aliases values al w = (Returns (al ++ alias_pairs values), w))
  \/ exists e,
       add_aliases values al w = (Raises e, w)
       /\ ((e = IndexError /\ Exists (fun ps => ps = []) values)
           \/ (e = CoverageException
               /\ Exists (fun ps => Exists (fun pattern => pattern_rejected pattern = true)
                                      (tail ps)) values)).
Proof.
  revert al. induction values as [|ps values IH]; intros al.
  - left. split; [constructor|]. cbn. rewrite app_nil_r. reflexivity.
  - destruct ps as [|result patterns].
    + right. exists IndexError. split; [reflexivity|]. left. split; [done|].
      by constructor.
    + destruct (add_patterns_cases patterns result al w) as [Hok|[Hex Hrun]].
      * destruct (IH (al ++ map (fun pattern => (pattern, result)) patterns))
          as [[Hall Hrun]|(e & Hrun & Hwhy)].
        -- left. split; [by constructor|]. by apply add_aliases_ok; constructor.
        -- right. exists e. split.
           ++ cbn. unfold bind. rewrite add_patterns_ok by done. exact Hrun.
           ++ destruct Hwhy as [[-> ?]|[-> ?]]; [left|right];
                (split; [done|by constructor 2]).
      * right. exists CoverageException. split.
        -- cbn. unfold bind. rewrite Hrun. reflexivity.
        -- right. split; [done|]. by constructor.
Qed.

Lemma values_accepted_rules (cpaths : list (string * list string)) :
  Forall rule_accepted (map snd cpaths) ->
  rules_nonempty cpaths /\ patterns_accepted cpaths.
Proof.
  unfold rules_nonempty, patterns_accepted. rewrite Forall_map, !Forall_forall.
  intros Hall. split; intros rule Hin; by destruct (Hall rule Hin).
Qed.

Lemma merge_auto r w :
  _make_suffix (Some r) w = (Returns SuffixTrue, w) ->
  _merge_nbval_coverage_data (Some r) w = (Returns tt, w).
Proof.
  intros Hs. unfold _merge_nbval_coverage_data, bind. rewrite Hs. reflexivity.
Qed.

Lemma merge_unreadable r w s :
  _make_suffix (Some r) w = (Returns (SuffixStr s), w) ->
  stored_data w (CoverageData_new (debug (heap w r)))
    (abspath (remote_filename (heap w r) s)) = None ->
  _merge_nbval_coverage_data (Some r) w =
  (Returns tt, emit (FileRead (abspath (remote_filename (heap w r) s))) w).
Proof.
  intros Hs Hd. unfold _merge_nbval_coverage_data, bind. rewrite Hs.
  unfold getattr, attempt, read_file.
  unfold stored_data, remote_filename in Hd.
  destruct (files w !! _) as [content|]; [|reflexivity].
  cbn in Hd. rewrite Hd. reflexivity.
Qed.

(** The steps after a successful read: the update of the recorder, then the
    removal of the file. *)
Lemma update_then_remove r w (s : string) (d : CoverageData) (content : string) :
  files w !! resolve (remote_filename (heap w r) s) = Some content ->
  bind (update r d (alias_table (paths (config (heap w r)))))
       (fun _ => file_be_gone (remote_filename (heap w r) s))
       (emit (FileRead (abspath (remote_filename (heap w r) s))) w) =
  if update_raises (data (heap w r)) d (alias_table (paths (config (heap w r))))
  then (Raises CoverageException, updated_world r s d w)
  else if remove_refused (resolve (remote_filename (heap w r) s))
       then (Raises OSError, updated_world r s d w)
       else (Returns tt, merged_world r s d w).
Proof.
  intros Hfile. unfold bind, update. cbn [heap emit].
  destruct (update_raises _ _ _); [reflexivity|].
  unfold file_be_gone. cbn [files set_heap emit]. rewrite Hfile.
  destruct (remove_refused _); [reflexivity|].
  unfold merged_world, emit, set_files, set_heap. cbn.
  rewrite <- app_assoc. reflexivity.
Qed.

(** Every way a merge can end once the data file has been read. *)
Lemma merge_readable_cases r w (s : string) (d : CoverageData) :
  _make_suffix (Some r) w = (Returns (SuffixStr s), w) ->
  stored_data w (CoverageData_new (debug (heap w r)))
    (abspath (remote_filename (heap w r) s)) = Some d ->
  (exists e,
     _merge_nbval_coverage_data (Some r) w =
       (Raises e, emit (FileRead (abspath (remote_filename (heap w r) s))) w)
     /\ ((e = IndexError
          /\ Exists (fun rule => snd rule = []) (paths (config (heap w r))))
         \/ (e = CoverageException /\ ~ patterns_accepted (paths (config (heap w r))))))
  \/ (rules_nonempty (paths (config (heap w r)))
      /\ patterns_accepted (paths (config (heap w r)))
      /\ _merge_nbval_coverage_data (Some r) w =
         if update_raises (data (heap w r)) d (alias_table (paths (config (heap w r))))
         then (Raises CoverageException, updated_world r s d w)
         else if remove_refused (resolve (remote_filename (heap w r) s))
              then (Raises OSError, updated_world r s d w)
              else (Returns tt, merged_world r s d w)).
Proof.
  intros Hs Hd. unfold _merge_nbval_coverage_data.
  rewrite (bind_returns _ _ _ _ _ Hs). cbn beta iota.
  erewrite bind_returns by reflexivity. cbn zeta.
  erewrite bind_returns by reflexivity.
  fold (remote_filename (heap w r) s).
  unfold stored_data in Hd.
  destruct (files w !! resolve (abspath (remote_filename (heap w r) s)))
    as [content|] eqn:Hfile; [|discriminate].
  cbn in Hd.
  assert (Hread :
    attempt (read_file (CoverageData_new (debug (heap w r)))
               (abspath (remote_filename (heap w r) s))) w =
    (Returns (Returns d),
     emit (FileRead (abspath (remote_filename (heap w r) s))) w)).
  { unfold attempt, read_file. rewrite Hfile, Hd. reflexivity. }
  rewrite (bind_returns _ _ _ _ _ Hread). cbn beta iota.
  erewrite bind_returns by reflexivity. cbn [heap emit].
  rewrite resolve_abspath in Hfile.
  destruct (paths (config (heap w r))) as [|rule rules] eqn:Hp.
  - right. split; [constructor|]. split; [constructor|].
    erewrite bind_returns by reflexivity.
    pose proof (update_then_remove r w s d content Hfile) as Hrest.
    rewrite Hp in Hrest. exact Hrest.
  - destruct (add_aliases_cases (map snd (rule :: rules)) []
                (emit (FileRead (abspath (remote_filename (heap w r) s))) w))
      as [[Hall Hrun]|(e & Hrun & Hwhy)].
    + right. apply values_accepted_rules in Hall as [Hne Hok].
      split; [done|]. split; [done|].
      erewrite bind_returns
        by (rewrite (bind_returns _ _ _ _ _ Hrun); reflexivity).
      pose proof (update_then_remove r w s d content Hfile) as Hrest.
      rewrite Hp in Hrest. exact Hrest.
    + left. exists e. split.
      * unfold bind at 1. unfold bind at 1. rewrite Hrun. reflexivity.
      * destruct Hwhy as [[-> Hex]|[-> Hex]]; [left|right]; (split; [done|]).
        -- apply Exists_exists in Hex as (ps & Hin & ->).
           apply list_elem_of_In, in_map_iff in Hin as (rule' & Hnil & Hin).
           apply Exists_exists. exists rule'. split; [by apply list_elem_of_In|done].
        -- intros Hacc. apply Exists_exists in Hex as (ps & Hin & Hbad).
           apply list_elem_of_In, in_map_iff in Hin as (rule' & <- & Hin).
           unfold patterns_accepted in Hacc. rewrite Forall_forall in Hacc.
           specialize (Hacc rule' (proj2 (list_elem_of_In _ _) Hin)).
           apply Exists_exists in Hbad as (pattern & Hpin & Hrej).
           rewrite Forall_forall in Hacc. specialize (Hacc pattern Hpin). congruence.
Qed.

Lemma merge_readable r w s d :
  _make_suffix (Some r) w = (Returns (SuffixStr s), w) ->
  stored_data w (CoverageData_new (debug (heap w r)))
    (abspath (remote_filename (heap w r) s)) = Some d ->
  rules_nonempty (paths (config (heap w r))) ->
  patterns_accepted (paths (config (heap w r))) ->
  update_raises (data (heap w r)) d (alias_table (paths (config (heap w r)))) = false ->
  remove_refused (resolve (remote_filename (heap w r) s)) = false ->
  _merge_nbval_coverage_data (Some r) w = (Returns tt, merged_world r s d w).
Proof.
  intros Hs Hd Hne Hok Hupd Hrm.
  destruct (merge_readable_cases r w s d Hs Hd)
    as [(e & _ & [[_ Hex]|[_ Hnot]])|(_ & _ & ->)].
  - exfalso. apply Exists_exists in Hex as (rule & Hin & Hnil).
    unfold rules_nonempty in Hne. rewrite Forall_forall in Hne.
    by apply (Hne rule Hin).
  - done.
  - by rewrite Hupd, Hrm.
Qed.

(** A merge that read the file and returned has merged. *)
Lemma merge_returns_merged r w s d (w1 : World) :
  _make_suffix (Some r) w = (Returns (SuffixStr s), w) ->
  stored_data w (CoverageData_new (debug (heap w r)))
    (abspath (remote_filename (heap w r) s)) = Some d ->
  _merge_nbval_coverage_data (Some r) w = (Returns tt, w1) ->
  w1 = merged_world r s d w.
Proof.
  intros Hs Hd.
  destruct (merge_readable_cases r w s d Hs Hd)
    as [(e & -> & _)|(_ & _ & ->)]; [discriminate|].
  destruct (update_raises _ _ _); [discriminate|].
  destruct (remove_refused _); [discriminate|]. by intros [= <-].
Qed.

(** *** The host session locator and the kernel steps *)

Lemma get_cov_run conf w :
  get_cov conf w =
  (Returns (host_recorder conf), w).
Proof.
  unfold get_cov, host_recorder, hasplugin, getplugin, bind.
  destruct (pluginmanager conf !! "_cov") as [plugin|] eqn:Hp.
  - rewrite bool_decide_eq_true_2 by eauto. cbn.
    destruct (cov_controller plugin); reflexivity.
  - rewrite bool_decide_eq_false_2 by (by intros [? ?]). reflexivity.
Qed.

Lemma format_python_setup (data_file : string) (source config_file suffix : PyVal) :
  format _python_setup [PyStr data_file; source; config_file; suffix] =
  Some (setup_command data_file source config_file suffix).
Proof. reflexivity. Qed.

Lemma format_unsupported (language : string) :
  format ("Coverage currently not supported for language " +:+ dquote +:+ "%s"
          +:+ dquote +:+ ".") [PyStr language] =
  Some (unsupported_message language).
Proof. reflexivity. Qed.

(** [setup_coverage] on a kernel of a supported language: the recorder is
    touched only to switch the warning off under an auto-generated suffix, and
    one command is submitted and awaited. *)
Lemma setup_supported_run conf kernel floc (output_loc : option string) w :
  supported kernel = true ->
  exists sfx msg_id o w',
    _make_suffix (host_recorder conf) w = (Returns sfx, w)
    /\ setup_coverage conf kernel floc output_loc w = (o, w')
    /\ heap w' =
        match sfx, host_recorder conf with
        | SuffixTrue, Some r => <[r := with_warn_no_data false (heap w r)]> (heap w)
        | _, _ => heap w
        end
    /\ trace w' =
        trace w ++
        [Executed
           (setup_command
              match host_recorder conf with
              | Some r => abspath (data_file (config (heap w r)))
              | None => abspath (path_join (py_or output_loc getcwd) ".coverage")
              end
              (cov_source (opts conf)) (cov_config (opts conf)) (Suffix_to_PyVal sfx))
           (Some false);
         Awaited msg_id 60].
Proof.
  intros Hlang. unfold setup_coverage. unfold supported in Hlang. rewrite Hlang.
  unfold bind at 1. rewrite get_cov_run.
  rewrite make_suffix_run.
  set (sfx := match host_recorder conf with Some _ => _ | None => _ end).
  set (df := match host_recorder conf with
             | Some r => abspath (data_file (config (heap w r)))
             | None => _
             end).
  assert (Hdf :
    match host_recorder conf with
    | Some c => bind (getattr c (fun o => data_file (config o))) (fun x => ret (abspath x))
    | None => ret (abspath (path_join (py_or output_loc getcwd) ".coverage"))
    end w = (Returns df, w)).
  { subst df. destruct (host_recorder conf); reflexivity. }
  unfold bind at 1. rewrite Hdf.
  unfold bind at 1. rewrite make_suffix_run. fold sfx.
  assert (Hw : exists w1,
    match sfx with
    | SuffixTrue => set_warn_no_data (host_recorder conf) false
    | SuffixStr _ => ret tt
    end w = (Returns tt, w1)
    /\ heap w1 =
        match sfx, host_recorder conf with
        | SuffixTrue, Some r => <[r := with_warn_no_data false (heap w r)]> (heap w)
        | _, _ => heap w
        end
    /\ trace w1 = trace w).
  { subst sfx. destruct (host_recorder conf) as [r|]; [|by eexists].
    destruct (data_suffix (heap w r)) as [[|s]|]; by eexists. }
  destruct Hw as (w1 & Hw1 & Hheap & Htrace).
  unfold bind at 1. rewrite Hw1.
  unfold bind at 1, py_format. rewrite format_python_setup. unfold ret at 1.
  unfold bind at 1, execute.
  destruct (kc_execute _ (remote w1) (files w1)) as [[msg_id rs] fs].
  unfold await_idle.
  exists sfx, msg_id. eexists _, _. split; [reflexivity|]. split; [reflexivity|].
  cbn. rewrite Hheap, Htrace, <- app_assoc. done.
Qed.

Lemma setup_unsupported_run conf kernel floc (output_loc : option string) w :
  supported kernel = false ->
  setup_coverage conf kernel floc output_loc w =
  (Returns tt, emit (Warned "C1" (unsupported_message (language kernel)) floc) w).
Proof.
  intros Hlang. unfold setup_coverage. unfold supported in Hlang. rewrite Hlang.
  unfold bind, py_format. rewrite format_unsupported. reflexivity.
Qed.

Lemma teardown_unsupported_run conf kernel (output_loc : option string) w :
  supported kernel = false ->
  teardown_coverage conf kernel output_loc w = (Returns tt, w).
Proof.
  intros Hlang. unfold teardown_coverage. unfold supported in Hlang.
  rewrite Hlang. reflexivity.
Qed.

(** Every world a merge into an existing recorder can end in. *)
Lemma merge_outcomes r w :
  (_make_suffix (Some r) w = (Returns SuffixTrue, w)
   /\ _merge_nbval_coverage_data (Some r) w = (Returns tt, w))
  \/ exists s,
       _make_suffix (Some r) w = (Returns (SuffixStr s), w)
       /\ exists o w',
            _merge_nbval_coverage_data (Some r) w = (o, w')
            /\ (w' = emit (FileRead (abspath (remote_filename (heap w r) s))) w
                \/ exists d, w' = updated_world r s d w \/ w' = merged_world r s d w).
Proof.
  destruct (_make_suffix (Some r) w) as [o w0] eqn:Hs.
  pose proof Hs as Hs'. rewrite make_suffix_run in Hs'.
  injection Hs' as Ho <-. destruct o as [[|s]|e]; [| |discriminate].
  - left. split; [done|]. by apply merge_auto.
  - right. exists s. split; [done|].
    destruct (stored_data w (CoverageData_new (debug (heap w r)))
                (abspath (remote_filename (heap w r) s))) as [d|] eqn:Hd.
    + destruct (merge_readable_cases r w s d Hs Hd)
        as [(e & -> & _)|(_ & _ & ->)].
      * eexists _, _. split; [reflexivity|]. by left.
      * destruct (update_raises _ _ _); [|destruct (remove_refused _)];
          eexists _, _; (split; [reflexivity|]); right; exists d; auto.
    + rewrite (merge_unreadable r w s Hs Hd).
      eexists _, _. split; [reflexivity|]. by left.
Qed.

Lemma merge_keeps_suffix (ocov : option Ref) w r :
  data_suffix (heap (snd (_merge_nbval_coverage_data ocov w)) r) =
  data_suffix (heap w r).
Proof.
  destruct ocov as [r0|]; [|reflexivity].
  destruct (merge_outcomes r0 w)
    as [[_ ->]|(s & _ & o & w' & -> & [->|(d & [->| ->])])];
    try reflexivity.
  all: cbn; unfold insert, fn_insert; case_decide; subst; reflexivity.
Qed.

Lemma setup_keeps_suffix conf kernel floc (output_loc : option string) w r :
  data_suffix (heap (snd (setup_coverage conf kernel floc output_loc w)) r) =
  data_suffix (heap w r).
Proof.
  destruct (supported kernel) eqn:Hlang.
  - destruct (setup_supported_run conf kernel floc output_loc w Hlang)
      as (sfx & msg_id & o & w' & _ & -> & Hheap & _).
    cbn. rewrite Hheap. destruct sfx, (host_recorder conf); try reflexivity.
    unfold insert, fn_insert. case_decide; subst; reflexivity.
  - rewrite setup_unsupported_run by done. reflexivity.
Qed.

Lemma teardown_keeps_suffix conf kernel (output_loc : option string) w r :
  data_suffix (heap (snd (teardown_coverage conf kernel output_loc w)) r) =
  data_suffix (heap w r).
Proof.
  destruct (supported kernel) eqn:Hlang.
  - unfold teardown_coverage. unfold supported in Hlang. rewrite Hlang.
    unfold bind at 1, execute.
    destruct (kc_execute _ (remote w) (files w)) as [[msg_id rs] fs].
    unfold bind at 1, await_idle.
    destruct (idle_within _ _ _); [|reflexivity].
    unfold bind at 1. rewrite get_cov_run.
    rewrite merge_keeps_suffix. reflexivity.
  - rewrite teardown_unsupported_run by done. reflexivity.
Qed.

Lemma py_or_default_coverage (output_loc : option string) :
  abspath (path_join (py_or output_loc getcwd) ".coverage") =
  abspath (path_join (default getcwd output_loc) ".coverage").
Proof.
  destruct output_loc as [[|c d]|]; cbn; [|reflexivity..].
  symmetry. apply abspath_join_empty.
Qed.

(** *** The properties of the specification *)

(** C1. The three-way mapping of the suffix resolver: with no recorder, or a
    recorder whose [data_suffix] is [None], the result is the tag [nbval];
    with an explicit suffix [S] it is [S] followed by [.nbval]; with the
    auto-generate value [True] it is [True]. *)
Theorem make_suffix_three_way (ocov : option Ref) w :
  (ocov = None \/ (exists r, ocov = Some r /\ data_suffix (heap w r) = None) ->
     _make_suffix ocov w = (Returns (SuffixStr "nbval"), w))
  /\ (forall r S, ocov = Some r -> data_suffix (heap w r) = Some (SuffixStr S) ->
        _make_suffix ocov w = (Returns (SuffixStr (S +:+ ".nbval")), w))
  /\ (forall r, ocov = Some r -> data_suffix (heap w r) = Some SuffixTrue ->
        _make_suffix ocov w = (Returns SuffixTrue, w)).
Proof.
  rewrite make_suffix_run. repeat split.
  - intros [->|(r & -> & ->)]; reflexivity.
  - intros r S -> ->. reflexivity.
  - intros r -> ->. reflexivity.
Qed.

(** C2, as the code has it.  For a kernel of a supported language and a
    host recorder whose [data_suffix] is the auto-generate value [True],
    [setup_coverage] leaves the recorder with [_warn_no_data] off; and for
    such a recorder the merge returns at once: nothing is read, nothing is
    removed and the recorder is not touched (the world is unchanged). *)
Theorem auto_suffix_no_merge conf kernel floc (output_loc : option string) r w :
  supported kernel = true ->
  get_cov conf w = (Returns (Some r), w) ->
  data_suffix (heap w r) = Some SuffixTrue ->
  _warn_no_data (heap (snd (setup_coverage conf kernel floc output_loc w)) r) = false
  /\ _merge_nbval_coverage_data (Some r) w = (Returns tt, w)
  /\ (let w' := snd (setup_coverage conf kernel floc output_loc w) in
      _merge_nbval_coverage_data (Some r) w' = (Returns tt, w')).
Proof.
  intros Hlang Hcov Hds.
  rewrite get_cov_run in Hcov. injection Hcov as Hcov.
  assert (Hauto : forall w0, data_suffix (heap w0 r) = Some SuffixTrue ->
                             _merge_nbval_coverage_data (Some r) w0 = (Returns tt, w0)).
  { intros w0 H0. apply merge_auto. rewrite make_suffix_run, H0. reflexivity. }
  split; [|split].
  - destruct (setup_supported_run conf kernel floc output_loc w Hlang)
      as (sfx & msg_id & o & w' & Hs & -> & Hheap & _).
    rewrite make_suffix_run, Hcov, Hds in Hs. injection Hs as <-.
    cbn. rewrite Hheap, Hcov, fn_lookup_insert. reflexivity.
  - by apply Hauto.
  - cbn. apply Hauto. by rewrite setup_keeps_suffix.
Qed.

(** C3, as the code has it.  For a recorder whose resolved suffix is a string
    [s], whose [[paths]] rules each name at least one path and only patterns
    that [PathAliases.add] accepts, with a readable data file at [<base>.<s>]
    holding the dataset [d], a file that may be removed: the merge reads that
    file and updates the dataset of the recorder with [d] under the alias
    table of the rules; when that update returns, the merge then removes the
    file; when the update raises, the exception goes on to the caller and the
    file is kept, the removal coming after the update. *)
Theorem merge_reads_updates_removes r w (s : string) (d : CoverageData) :
  _make_suffix (Some r) w = (Returns (SuffixStr s), w) ->
  stored_data w (CoverageData_new (debug (heap w r)))
    (filename (data_files (heap w r)) +:+ "." +:+ s) = Some d ->
  rules_nonempty (paths (config (heap w r))) ->
  patterns_accepted (paths (config (heap w r))) ->
  remove_refused (resolve (filename (data_files (heap w r)) +:+ "." +:+ s)) = false ->
  (update_raises (data (heap w r)) d (alias_table (paths (config (heap w r)))) = false ->
   exists w',
     _merge_nbval_coverage_data (Some r) w = (Returns tt, w')
     /\ trace w' =
        trace w ++
        [FileRead (abspath (filename (data_files (heap w r)) +:+ "." +:+ s));
         FileRemoved (filename (data_files (heap w r)) +:+ "." +:+ s)]
     /\ data (heap w' r) =
        data_update (data (heap w r)) d (alias_table (paths (config (heap w r))))
     /\ files w' =
        delete (resolve (filename (data_files (heap w r)) +:+ "." +:+ s)) (files w)
     /\ files w' !! resolve (abspath (filename (data_files (heap w r)) +:+ "." +:+ s)) =
        None)
  /\ (update_raises (data (heap w r)) d (alias_table (paths (config (heap w r)))) = true ->
      exists w',
        _merge_nbval_coverage_data (Some r) w = (Raises CoverageException, w')
        /\ files w' = files w
        /\ trace w' =
           trace w ++
           [FileRead (abspath (filename (data_files (heap w r)) +:+ "." +:+ s))]).
Proof.
  intros Hs Hd Hne Hok Hrm. rewrite <- stored_data_abspath in Hd.
  destruct (merge_readable_cases r w s d Hs Hd)
    as [(e & _ & [[_ Hex]|[_ Hnot]])|(_ & _ & Hrun)].
  { exfalso. apply Exists_exists in Hex as (rule & Hin & Hnil).
    unfold rules_nonempty in Hne. rewrite Forall_forall in Hne.
    by apply (Hne rule Hin). }
  { done. }
  unfold remote_filename in Hrun. rewrite Hrm in Hrun. split; intros Hupd;
    rewrite Hupd in Hrun.
  - exists (merged_world r s d w).
    split; [exact Hrun|]. split; [reflexivity|]. split.
    + cbn. rewrite fn_lookup_insert. reflexivity.
    + split; [reflexivity|]. cbn. rewrite resolve_abspath. apply lookup_delete_eq.
  - exists (updated_world r s d w). split; [exact Hrun|]. split; reflexivity.
Qed.

(** C4. When the data file of the kernel is missing, or is there but does
    not parse, the merge returns normally; the recorders and the files are as
    before, and the only new event is the attempted read. *)
Theorem merge_unreadable_is_silent r w (s : string) :
  _make_suffix (Some r) w = (Returns (SuffixStr s), w) ->
  files w !! resolve (filename (data_files (heap w r)) +:+ "." +:+ s) = None
  \/ (exists content,
        files w !! resolve (filename (data_files (heap w r)) +:+ "." +:+ s) = Some content
        /\ data_parse (CoverageData_new (debug (heap w r))) content = None) ->
  exists w',
    _merge_nbval_coverage_data (Some r) w = (Returns tt, w')
    /\ heap w' = heap w
    /\ files w' = files w
    /\ trace w' =
       trace w ++ [FileRead (abspath (filename (data_files (heap w r)) +:+ "." +:+ s))].
Proof.
  intros Hs Hfile.
  exists (emit (FileRead (abspath (remote_filename (heap w r) s))) w).
  split; [|done].
  apply merge_unreadable; [done|].
  rewrite stored_data_abspath. unfold stored_data, remote_filename.
  destruct Hfile as [->|(content & -> & Hparse)]; [reflexivity|exact Hparse].
Qed.

(** C5. For a kernel whose language does not start with [python],
    [setup_coverage] emits one warning, of category [C1], and does nothing
    else; [teardown_coverage] does nothing at all: no command is submitted,
    no warning emitted, no file read. *)
Theorem unsupported_language conf kernel floc (output_loc : option string) w :
  supported kernel = false ->
  setup_coverage conf kernel floc output_loc w =
    (Returns tt, emit (Warned "C1" (unsupported_message (language kernel)) floc) w)
  /\ trace (snd (setup_coverage conf kernel floc output_loc w)) =
     trace w ++ [Warned "C1" (unsupported_message (language kernel)) floc]
  /\ teardown_coverage conf kernel output_loc w = (Returns tt, w).
Proof.
  intros Hlang. rewrite setup_unsupported_run by done.
  split; [done|]. split; [done|]. by apply teardown_unsupported_run.
Qed.

(** C6. A second merge after a successful one (the data file was read, merged
    and removed by the first call) finds the file gone, returns normally and
    leaves the recorders and the files as the first call left them. *)
Theorem merge_twice r w (s : string) (d : CoverageData) (w1 : World) :
  _make_suffix (Some r) w = (Returns (SuffixStr s), w) ->
  stored_data w (CoverageData_new (debug (heap w r)))
    (filename (data_files (heap w r)) +:+ "." +:+ s) = Some d ->
  _merge_nbval_coverage_data (Some r) w = (Returns tt, w1) ->
  files w1 !! resolve (filename (data_files (heap w r)) +:+ "." +:+ s) = None
  /\ exists w2,
       _merge_nbval_coverage_data (Some r) w1 = (Returns tt, w2)
       /\ heap w2 = heap w1
       /\ data (heap w2 r) = data (heap w1 r)
       /\ files w2 = files w1.
Proof.
  intros Hs Hd Hfirst.
  rewrite <- stored_data_abspath in Hd.
  rewrite (merge_returns_merged r w s d w1 Hs Hd Hfirst).
  split; [apply lookup_delete_eq|].
  assert (Hc : heap (merged_world r s d w) r =
               with_data (data_update (data (heap w r)) d
                            (alias_table (paths (config (heap w r))))) (heap w r)).
  { cbn. by rewrite fn_lookup_insert. }
  exists (emit (FileRead (abspath (remote_filename (heap w r) s))) (merged_world r s d w)).
  split; [|done].
  rewrite (merge_unreadable r (merged_world r s d w) s).
  - rewrite Hc. reflexivity.
  - rewrite make_suffix_run in Hs. injection Hs as Hs.
    rewrite make_suffix_run, Hc. cbn [data_suffix with_data]. by rewrite Hs.
  - rewrite stored_data_abspath. unfold stored_data. rewrite Hc. cbn.
    unfold remote_filename. rewrite lookup_delete_eq. reflexivity.
Qed.

(** C7. The suffix resolver is deterministic.  It reads the recorder and
    changes nothing; in two worlds where the recorder has the same
    [data_suffix] (or there is no recorder) it returns the same value; and
    neither [setup_coverage] nor [teardown_coverage] changes the [data_suffix]
    of a recorder, so the value computed at setup time is the value computed
    at merge time. *)
Theorem make_suffix_deterministic (ocov : option Ref) :
  (forall w1 w2,
     (forall r, ocov = Some r -> data_suffix (heap w1 r) = data_suffix (heap w2 r)) ->
     exists v,
       _make_suffix ocov w1 = (Returns v, w1) /\ _make_suffix ocov w2 = (Returns v, w2))
  /\ (forall conf kernel floc output_loc w,
        fst (_make_suffix ocov (snd (setup_coverage conf kernel floc output_loc w))) =
        fst (_make_suffix ocov w))
  /\ (forall conf kernel output_loc w,
        fst (_make_suffix ocov (snd (teardown_coverage conf kernel output_loc w))) =
        fst (_make_suffix ocov w)).
Proof.
  split; [|split].
  - intros w1 w2 Hsame. rewrite !make_suffix_run.
    destruct ocov as [r|]; [|by eexists].
    rewrite (Hsame r eq_refl). by eexists.
  - intros. rewrite !make_suffix_run. destruct ocov as [r|]; [|done].
    cbn. by rewrite setup_keeps_suffix.
  - intros. rewrite !make_suffix_run. destruct ocov as [r|]; [|done].
    cbn. by rewrite teardown_keeps_suffix.
Qed.

(** C8. For a kernel of a supported language, the data file named in the
    command that [setup_coverage] submits is the absolute form of the data
    file configured for the host recorder when [get_cov] finds one; without a
    recorder it is the absolute path of [.coverage] under the output
    location, and under the working directory when no output location is
    given. *)
Theorem setup_data_file conf kernel floc (output_loc : option string)
    (ocov : option Ref) w :
  supported kernel = true ->
  get_cov conf w = (Returns ocov, w) ->
  exists o w' sfx msg_id,
    setup_coverage conf kernel floc output_loc w = (o, w')
    /\ trace w' =
       trace w ++
       [Executed
          (setup_command
             match ocov with
             | Some r => abspath (data_file (config (heap w r)))
             | None =>
                 match output_loc with
                 | Some dir => abspath (path_join dir ".coverage")
                 | None => abspath (path_join getcwd ".coverage")
                 end
             end
             (cov_source (opts conf)) (cov_config (opts conf)) (Suffix_to_PyVal sfx))
          (Some false);
        Awaited msg_id 60].
Proof.
  intros Hlang Hcov. rewrite get_cov_run in Hcov. injection Hcov as Hcov.
  destruct (setup_supported_run conf kernel floc output_loc w Hlang)
    as (sfx & msg_id & o & w' & _ & Hrun & _ & Htrace).
  exists o, w', sfx, msg_id. split; [done|].
  rewrite Htrace, Hcov. destruct ocov as [r|]; [done|].
  rewrite py_or_default_coverage. by destruct output_loc.
Qed.

(** C9. When the plugin ['_cov'] is not registered, or is registered without
    a controller, [get_cov] returns [None] and raises nothing; the merge
    called with [None] returns at once and leaves the world, the files on
    disk among it, as it is. *)
Theorem no_host_session conf w :
  pluginmanager conf !! "_cov" = None
  \/ (exists plugin,
        pluginmanager conf !! "_cov" = Some plugin /\ cov_controller plugin = None) ->
  get_cov conf w = (Returns None, w)
  /\ _merge_nbval_coverage_data None w = (Returns tt, w).
Proof.
  intros Hplugin.
  assert (Hnone : host_recorder conf = None).
  { unfold host_recorder. destruct Hplugin as [->|(plugin & -> & ->)]; reflexivity. }
  split.
  - rewrite get_cov_run, Hnone. reflexivity.
  - reflexivity.
Qed.

(** C10. An empty string as [data_suffix] is an explicit suffix, not an absent
    one: the resolver returns [.nbval], and the merge reads the data of the
    kernel from [<base>..nbval], with two dots, where a recorder without
    suffix gives [<base>.nbval]. *)
Theorem empty_suffix_is_explicit r w :
  data_suffix (heap w r) = Some (SuffixStr EmptyString) ->
  _make_suffix (Some r) w = (Returns (SuffixStr ".nbval"), w)
  /\ (exists o w' rest,
        _merge_nbval_coverage_data (Some r) w = (o, w')
        /\ trace w' =
           trace w
           ++ FileRead (abspath (filename (data_files (heap w r)) +:+ "..nbval")) :: rest)
  /\ (forall w0, data_suffix (heap w0 r) = None ->
        _make_suffix (Some r) w0 = (Returns (SuffixStr "nbval"), w0)
        /\ exists o w' rest,
             _merge_nbval_coverage_data (Some r) w0 = (o, w')
             /\ trace w' =
                trace w0
                ++ FileRead (abspath (filename (data_files (heap w0 r)) +:+ ".nbval"))
                   :: rest).
Proof.
  assert (Hread : forall w0 s,
    _make_suffix (Some r) w0 = (Returns (SuffixStr s), w0) ->
    exists o w' rest,
      _merge_nbval_coverage_data (Some r) w0 = (o, w')
      /\ trace w' =
         trace w0 ++ FileRead (abspath (remote_filename (heap w0 r) s)) :: rest).
  { intros w0 s Hs.
    destruct (merge_outcomes r w0)
      as [[Hauto _]|(s' & Hs' & o & w' & Hrun & Hcases)]; [congruence|].
    assert (s' = s) as -> by congruence.
    exists o, w'. destruct Hcases as [->|(d & [->| ->])].
    - by exists [].
    - by exists [].
    - by eexists [_]. }
  intros Hds.
  assert (Hs : _make_suffix (Some r) w = (Returns (SuffixStr ".nbval"), w)).
  { rewrite make_suffix_run, Hds. reflexivity. }
  split; [done|]. split.
  - apply (Hread w ".nbval" Hs).
  - intros w0 Hnone.
    assert (Hs0 : _make_suffix (Some r) w0 = (Returns (SuffixStr "nbval"), w0)).
    { rewrite make_suffix_run, Hnone. reflexivity. }
    split; [done|]. apply (Hread w0 "nbval" Hs0).
Qed.

End Properties.

(** ** The properties on the concrete runtime *)

Section Examples.

#[local] Existing Instances demo_runtime demo_coverage demo_kernel_channel.

Lemma make_suffix_three_way_witness :
  _make_suffix None demo_world_ok = (Returns (SuffixStr "nbval"), demo_world_ok)
  /\ _make_suffix (Some 0) demo_world_ok = (Returns (SuffixStr "nbval"), demo_world_ok)
  /\ _make_suffix (Some 0) demo_world_par = (Returns (SuffixStr "par.nbval"), demo_world_par)
  /\ _make_suffix (Some 0) demo_world_auto = (Returns SuffixTrue, demo_world_auto).
Proof.
  split; [|split; [|split]].
  - apply (proj1 (make_suffix_three_way None demo_world_ok)). left. reflexivity.
  - apply (proj1 (make_suffix_three_way (Some 0) demo_world_ok)). right.
    exists 0. split; reflexivity.
  - apply (proj1 (proj2 (make_suffix_three_way (Some 0) demo_world_par)) 0 "par");
      reflexivity.
  - apply (proj2 (proj2 (make_suffix_three_way (Some 0) demo_world_auto)) 0);
      reflexivity.
Defined.

(** C2 as stated fails for a kernel of an unsupported language: the recorder
    auto-generates its suffix, and after [setup_coverage] on an R kernel its
    [_warn_no_data] is still on. *)
Lemma setup_unsupported_keeps_warning :
  get_cov demo_config demo_world_auto = (Returns (Some 0), demo_world_auto)
  /\ data_suffix (heap demo_world_auto 0) = Some SuffixTrue
  /\ _warn_no_data (heap demo_world_auto 0) = true
  /\ _warn_no_data
       (heap (snd (setup_coverage demo_config {| language := "r" |} None None
                     demo_world_auto)) 0) = true.
Proof. repeat split; vm_compute; reflexivity. Qed.

Lemma auto_suffix_no_merge_witness :
  _warn_no_data
    (heap (snd (setup_coverage demo_config {| language := "python3" |} None None
                  demo_world_auto)) 0) = false
  /\ _merge_nbval_coverage_data (Some 0) demo_world_auto = (Returns tt, demo_world_auto)
  /\ (let w' := snd (setup_coverage demo_config {| language := "python3" |} None None
                       demo_world_auto) in
      _merge_nbval_coverage_data (Some 0) w' = (Returns tt, w')).
Proof.
  apply (auto_suffix_no_merge demo_config {| language := "python3" |} None None 0
           demo_world_auto); vm_compute; reflexivity.
Defined.

(** C3 as stated fails when a rule of the [[paths]] section names no path:
    the suffix is a string and the file is read, and then [paths[0]] raises;
    nothing is merged and the file stays. *)
Lemma merge_empty_rule_raises :
  _make_suffix (Some 0) demo_world_empty_rule =
    (Returns (SuffixStr "nbval"), demo_world_empty_rule)
  /\ stored_data demo_world_empty_rule (CoverageData_new tt) "/work/.coverage.nbval" =
     Some ["nb.py"]
  /\ fst (_merge_nbval_coverage_data (Some 0) demo_world_empty_rule) = Raises IndexError
  /\ data (heap (snd (_merge_nbval_coverage_data (Some 0) demo_world_empty_rule)) 0) =
     data (heap demo_world_empty_rule 0)
  /\ files (snd (_merge_nbval_coverage_data (Some 0) demo_world_empty_rule))
       !! "/work/.coverage.nbval" = Some "!nb.py".
Proof. repeat split; vm_compute; reflexivity. Qed.

Lemma merge_reads_updates_removes_witness :
  (exists w',
     _merge_nbval_coverage_data (Some 0) demo_world_ok = (Returns tt, w')
     /\ trace w' =
        [FileRead "/work/.coverage.nbval"; FileRemoved "/work/.coverage.nbval"]
     /\ data (heap w' 0) = ["host.py"; "/src"]
     /\ files w' = delete "/work/.coverage.nbval" (files demo_world_ok)
     /\ files w' !! "/work/.coverage.nbval" = None)
  /\ (exists w',
        _merge_nbval_coverage_data (Some 0) demo_world_arcs =
          (Raises CoverageException, w')
        /\ files w' = files demo_world_arcs
        /\ trace w' = [FileRead "/work/.coverage.nbval"]).
Proof.
  assert (Hrules : rules_nonempty [("src", ["/src"; "/remote/src"])]).
  { repeat constructor. discriminate. }
  assert (Hpatterns : patterns_accepted [("src", ["/src"; "/remote/src"])]).
  { repeat constructor. }
  split.
  - exact (proj1 (merge_reads_updates_removes 0 demo_world_ok "nbval" ["/remote/src"]
                    eq_refl eq_refl Hrules Hpatterns eq_refl) eq_refl).
  - exact (proj2 (merge_reads_updates_removes 0 demo_world_arcs "nbval" ["#arcs"]
                    eq_refl eq_refl Hrules Hpatterns eq_refl) eq_refl).
Defined.

Lemma merge_unreadable_is_silent_witness :
  (exists w',
     _merge_nbval_coverage_data (Some 0) demo_world_par = (Returns tt, w')
     /\ heap w' = heap demo_world_par
     /\ files w' = files demo_world_par
     /\ trace w' = [FileRead "/work/.coverage.par.nbval"])
  /\ (exists w',
        _merge_nbval_coverage_data (Some 0) demo_world_corrupt = (Returns tt, w')
        /\ heap w' = heap demo_world_corrupt
        /\ files w' = files demo_world_corrupt
        /\ trace w' = [FileRead "/work/.coverage.nbval"]).
Proof.
  split.
  - exact (merge_unreadable_is_silent 0 demo_world_par "par.nbval" eq_refl
             (or_introl eq_refl)).
  - exact (merge_unreadable_is_silent 0 demo_world_corrupt "nbval" eq_refl
             (or_intror (ex_intro _ "garbage" (conj eq_refl eq_refl)))).
Defined.

Lemma unsupported_language_witness :
  supported {| language := "r" |} = false
  /\ setup_coverage demo_config {| language := "r" |} None None demo_world_ok =
     (Returns tt,
      emit (Warned "C1" (unsupported_message "r") None) demo_world_ok)
  /\ trace (snd (setup_coverage demo_config {| language := "r" |} None None demo_world_ok)) =
     [Warned "C1" (unsupported_message "r") None]
  /\ teardown_coverage demo_config {| language := "r" |} None demo_world_ok =
     (Returns tt, demo_world_ok).
Proof.
  split; [reflexivity|].
  exact (unsupported_language demo_config {| language := "r" |} None None demo_world_ok
           eq_refl).
Defined.

Lemma merge_twice_witness :
  files (merged_world 0 "nbval" ["/remote/src"] demo_world_ok)
    !! "/work/.coverage.nbval" = None
  /\ exists w2,
       _merge_nbval_coverage_data (Some 0)
         (merged_world 0 "nbval" ["/remote/src"] demo_world_ok) = (Returns tt, w2)
       /\ heap w2 = heap (merged_world 0 "nbval" ["/remote/src"] demo_world_ok)
       /\ data (heap w2 0) = ["host.py"; "/src"]
       /\ files w2 = files (merged_world 0 "nbval" ["/remote/src"] demo_world_ok).
Proof.
  exact (merge_twice 0 demo_world_ok "nbval" ["/remote/src"]
           (merged_world 0 "nbval" ["/remote/src"] demo_world_ok)
           eq_refl eq_refl eq_refl).
Defined.

Lemma make_suffix_deterministic_witness :
  let at_merge :=
    snd (setup_coverage demo_config {| language := "python3" |} None None
           demo_world_par) in
  exists v,
    _make_suffix (Some 0) demo_world_par = (Returns v, demo_world_par)
    /\ _make_suffix (Some 0) at_merge = (Returns v, at_merge).
Proof.
  apply (proj1 (make_suffix_deterministic (Some 0))).
  intros r Hr. injection Hr as <-. reflexivity.
Defined.

Lemma setup_data_file_witness :
  (exists o w' sfx msg_id,
     setup_coverage demo_config {| language := "python3" |} None (Some "out")
       demo_world_ok = (o, w')
     /\ trace w' =
        [Executed
           (setup_command "/work/.coverage" (PyList ["pkg"]) (PyStr ".coveragerc")
              (Suffix_to_PyVal sfx))
           (Some false);
         Awaited msg_id 60])
  /\ (exists o w' sfx msg_id,
        setup_coverage demo_config_plain {| language := "python3" |} None (Some "out")
          demo_world_ok = (o, w')
        /\ trace w' =
           [Executed
              (setup_command "/work/out/.coverage" PyNone PyNone (Suffix_to_PyVal sfx))
              (Some false);
            Awaited msg_id 60])
  /\ (exists o w' sfx msg_id,
        setup_coverage demo_config_plain {| language := "python3" |} None None
          demo_world_ok = (o, w')
        /\ trace w' =
           [Executed
              (setup_command "/work/.coverage" PyNone PyNone (Suffix_to_PyVal sfx))
              (Some false);
            Awaited msg_id 60])
  /\ (exists o w' sfx msg_id,
        setup_coverage demo_config_plain {| language := "python3" |} None
          (Some EmptyString) demo_world_ok = (o, w')
        /\ trace w' =
           [Executed
              (setup_command "/work/.coverage" PyNone PyNone (Suffix_to_PyVal sfx))
              (Some false);
            Awaited msg_id 60]).
Proof.
  split; [|split; [|split]].
  - exact (setup_data_file demo_config {| language := "python3" |} None (Some "out")
             (Some 0) demo_world_ok eq_refl eq_refl).
  - exact (setup_data_file demo_config_plain {| language := "python3" |} None (Some "out")
             None demo_world_ok eq_refl eq_refl).
  - exact (setup_data_file demo_config_plain {| language := "python3" |} None None
             None demo_world_ok eq_refl eq_refl).
  - exact (setup_data_file demo_config_plain {| language := "python3" |} None
             (Some EmptyString) None demo_world_ok eq_refl eq_refl).
Defined.

Lemma no_host_session_witness :
  get_cov demo_config_plain demo_world_ok = (Returns None, demo_world_ok)
  /\ _merge_nbval_coverage_data None demo_world_ok = (Returns tt, demo_world_ok).
Proof.
  exact (no_host_session demo_config_plain demo_world_ok (or_introl eq_refl)).
Defined.

Lemma empty_suffix_is_explicit_witness :
  _make_suffix (Some 0) demo_world_empty_suffix =
    (Returns (SuffixStr ".nbval"), demo_world_empty_suffix)
  /\ exists o w' rest,
       _merge_nbval_coverage_data (Some 0) demo_world_empty_suffix = (o, w')
       /\ trace w' = FileRead "/work/.coverage..nbval" :: rest.
Proof.
  pose proof (empty_suffix_is_explicit 0 demo_world_empty_suffix eq_refl)
    as (Hs & Hread & _).
  split; [exact Hs|exact Hread].
Defined.

End Examples.

(** ** Whole calls: outcomes, frames and sessions *)

Section Calls.

Context {RT : PyRuntime} {CP : CoveragePy} {KC : KernelChannel}.

Implicit Types (w : World) (r : Ref) (conf : Config) (kernel : Kernel).

(** *** Closed forms of the two entry points *)

Lemma exchange_run kernel (cmd : string) (stop_on_error : option bool) w :
  bind (execute kernel cmd stop_on_error) (fun msg_id => await_idle kernel msg_id 60) w =
  (if kernel_idle cmd w then Returns tt else Raises ExecutionTimeout,
   kernel_round cmd stop_on_error w).
Proof.
  unfold bind, execute, await_idle, kernel_idle, kernel_round.
  destruct (kc_execute cmd (remote w) (files w)) as [[msg_id rs] fs].
  unfold emit, set_files, set_remote. cbn. rewrite <- app_assoc. reflexivity.
Qed.

Lemma setup_supported_exact conf kernel floc (output_loc : option string) w :
  supported kernel = true ->
  setup_coverage conf kernel floc output_loc w =
  let w1 :=
    match host_recorder conf with
    | Some r =>
        match data_suffix (heap w r) with
        | Some SuffixTrue =>
            set_heap (<[r := with_warn_no_data false (heap w r)]> (heap w)) w
        | _ => w
        end
    | None => w
    end in
  (if kernel_idle (setup_text conf output_loc w) w then Returns tt
   else Raises ExecutionTimeout,
   kernel_round (setup_text conf output_loc w) (Some false) w1).
Proof.
  intros Hlang. unfold setup_coverage. unfold supported in Hlang. rewrite Hlang.
  rewrite (bind_returns _ _ _ _ _ (get_cov_run conf w)).
  set (df := match host_recorder conf with
             | Some r => abspath (data_file (config (heap w r)))
             | None => abspath (path_join (py_or output_loc getcwd) ".coverage")
             end).
  erewrite bind_returns with (a := df) (w' := w)
    by (subst df; destruct (host_recorder conf); reflexivity).
  rewrite (bind_returns _ _ _ _ _ (make_suffix_run (host_recorder conf) w)).
  set (sfx := match host_recorder conf with Some _ => _ | None => _ end).
  set (w1 := match host_recorder conf with
             | Some r =>
                 match data_suffix (heap w r) with
                 | Some SuffixTrue =>
                     set_heap (<[r := with_warn_no_data false (heap w r)]> (heap w)) w
                 | _ => w
                 end
             | None => w
             end).
  erewrite bind_returns with (a := tt) (w' := w1).
  2:{ subst sfx w1. destruct (host_recorder conf) as [r|]; [|reflexivity].
      destruct (data_suffix (heap w r)) as [[|s]|]; reflexivity. }
  erewrite bind_returns
    by (unfold py_format; rewrite format_python_setup; reflexivity).
  rewrite exchange_run. fold (setup_text conf output_loc w). cbn zeta.
  assert (Hsame : remote w1 = remote w /\ files w1 = files w).
  { subst w1. destruct (host_recorder conf) as [r|]; [|done].
    destruct (data_suffix (heap w r)) as [[|s]|]; done. }
  unfold kernel_idle. destruct Hsame as [-> ->]. reflexivity.
Qed.

Lemma teardown_supported_exact conf kernel (output_loc : option string) w :
  supported kernel = true ->
  teardown_coverage conf kernel output_loc w =
  if kernel_idle _python_teardown w
  then _merge_nbval_coverage_data (host_recorder conf)
         (kernel_round _python_teardown None w)
  else (Raises ExecutionTimeout, kernel_round _python_teardown None w).
Proof.
  intros Hlang. unfold teardown_coverage. unfold supported in Hlang. rewrite Hlang.
  transitivity
    (bind (bind (execute kernel _python_teardown None)
                (fun msg_id => await_idle kernel msg_id 60))
          (fun _ => bind (get_cov conf) _merge_nbval_coverage_data) w).
  { unfold bind. destruct (execute kernel _python_teardown None w) as [[msg_id|e] w0];
      reflexivity. }
  unfold bind at 1. rewrite exchange_run.
  destruct (kernel_idle _python_teardown w); [|reflexivity].
  unfold bind. rewrite get_cov_run. reflexivity.
Qed.

(** Every way a merge into an existing recorder can end, with the reason. *)
Lemma merge_classified r w :
  (data_suffix (heap w r) = Some SuffixTrue
   /\ _merge_nbval_coverage_data (Some r) w = (Returns tt, w))
  \/ exists s,
       _make_suffix (Some r) w = (Returns (SuffixStr s), w)
       /\ ((stored_data w (CoverageData_new (debug (heap w r)))
              (remote_filename (heap w r) s) = None
            /\ _merge_nbval_coverage_data (Some r) w =
               (Returns tt, emit (FileRead (abspath (remote_filename (heap w r) s))) w))
           \/ exists d,
                stored_data w (CoverageData_new (debug (heap w r)))
                  (remote_filename (heap w r) s) = Some d
                /\ ((exists e,
                       _merge_nbval_coverage_data (Some r) w =
                         (Raises e,
                          emit (FileRead (abspath (remote_filename (heap w r) s))) w)
                       /\ ((e = IndexError
                            /\ has_empty_rule (paths (config (heap w r))))
                           \/ (e = CoverageException
                               /\ ~ patterns_accepted (paths (config (heap w r))))))
                    \/ (rules_nonempty (paths (config (heap w r)))
                        /\ patterns_accepted (paths (config (heap w r)))
                        /\ ((update_raises (data (heap w r)) d
                               (alias_table (paths (config (heap w r)))) = true
                             /\ _merge_nbval_coverage_data (Some r) w =
                                (Raises CoverageException, updated_world r s d w))
                            \/ (update_raises (data (heap w r)) d
                                  (alias_table (paths (config (heap w r)))) = false
                                /\ remove_refused
                                     (resolve (remote_filename (heap w r) s)) = true
                                /\ _merge_nbval_coverage_data (Some r) w =
                                   (Raises OSError, updated_world r s d w))
                            \/ (update_raises (data (heap w r)) d
                                  (alias_table (paths (config (heap w r)))) = false
                                /\ remove_refused
                                     (resolve (remote_filename (heap w r) s)) = false
                                /\ _merge_nbval_coverage_data (Some r) w =
                                   (Returns tt, merged_world r s d w)))))).
Proof.
  destruct (_make_suffix (Some r) w) as [o w0] eqn:Hs.
  pose proof Hs as Hs'. rewrite make_suffix_run in Hs'.
  injection Hs' as Ho <-. destruct o as [[|s]|e]; [| |discriminate].
  - left. split; [|by apply merge_auto].
    destruct (data_suffix (heap w r)) as [[|s0]|]; done.
  - right. exists s. split; [done|].
    destruct (stored_data w (CoverageData_new (debug (heap w r)))
                (remote_filename (heap w r) s)) as [d|] eqn:Hd.
    + right. exists d. split; [done|].
      rewrite <- stored_data_abspath in Hd.
      destruct (merge_readable_cases r w s d Hs Hd)
        as [(e & Hrun & Hwhy)|(Hne & Hok & Hrun)].
      * left. by exists e.
      * right. split; [done|]. split; [done|].
        destruct (update_raises _ _ _); [by left|right].
        destruct (remove_refused _); [by left|by right].
    + left. split; [done|]. apply merge_unreadable; [done|].
      by rewrite stored_data_abspath.
Qed.

(** After a merge the data file of the kernel cannot be read any more. *)
Lemma merged_world_unreadable r w (s : string) (d : CoverageData) :
  stored_data (merged_world r s d w)
    (CoverageData_new (debug (heap (merged_world r s d w) r)))
    (remote_filename (heap (merged_world r s d w) r) s) = None.
Proof.
  unfold stored_data. cbn. rewrite fn_lookup_insert. cbn.
  unfold remote_filename. rewrite lookup_delete_eq. reflexivity.
Qed.

Lemma merged_world_suffix r w (s : string) (d : CoverageData) :
  _make_suffix (Some r) w = (Returns (SuffixStr s), w) ->
  _make_suffix (Some r) (merged_world r s d w) =
  (Returns (SuffixStr s), merged_world r s d w).
Proof.
  rewrite !make_suffix_run. intros Hs. injection Hs as Hs.
  cbn. rewrite fn_lookup_insert. cbn. by rewrite Hs.
Qed.

(** *** Further properties of the code *)

(** X1. [get_cov] never raises and changes nothing: the check with
    [hasplugin] keeps [getplugin] from raising.  It returns a recorder exactly
    when the plugin ['_cov'] is registered, has a controller, and the
    controller holds that recorder. *)
Theorem get_cov_finds_controller conf w :
  exists o,
    get_cov conf w = (Returns o, w)
    /\ forall r,
         o = Some r <->
         exists plugin controller,
           pluginmanager conf !! "_cov" = Some plugin
           /\ cov_controller plugin = Some controller
           /\ cov controller = Some r.
Proof.
  exists (host_recorder conf). split; [apply get_cov_run|].
  intros r. unfold host_recorder. split.
  - destruct (pluginmanager conf !! "_cov") as [plugin|]; [|discriminate].
    destruct (cov_controller plugin) as [controller|] eqn:Hc; [|discriminate].
    intros Hr. by exists plugin, controller.
  - intros (plugin & controller & -> & -> & Hr). exact Hr.
Qed.

(** X2. [setup_coverage] raises nothing but the timeout of the wait for the
    kernel, and raises it exactly when the language is supported and the
    kernel does not become idle within 60 seconds of the submission.  The
    formatting of the command and the assignment to the recorder never
    raise. *)
Theorem setup_raises_only_timeout conf kernel floc (output_loc : option string) w :
  (forall e w', setup_coverage conf kernel floc output_loc w = (Raises e, w') ->
                e = ExecutionTimeout)
  /\ (fst (setup_coverage conf kernel floc output_loc w) = Raises ExecutionTimeout <->
      supported kernel = true /\ kernel_idle (setup_text conf output_loc w) w = false).
Proof.
  destruct (supported kernel) eqn:Hlang.
  - rewrite setup_supported_exact by done. cbn zeta.
    destruct (kernel_idle (setup_text conf output_loc w) w); cbn; split.
    + intros e w' [=].
    + split; [discriminate|]. by intros [_ ?].
    + by intros e w' [= <- _].
    + done.
  - rewrite setup_unsupported_run by done. cbn. split.
    + intros e w' [=].
    + split; [discriminate|]. by intros [? _].
Qed.

(** X3. The frame of [setup_coverage].  Whatever the outcome, a recorder is as
    before up to its [_warn_no_data] flag, and that flag changes only for the
    recorder [get_cov] finds, under a supported language and an
    auto-generated suffix.  Setup itself reads no file and removes none. *)
Theorem setup_frame conf kernel floc (output_loc : option string) w r :
  let w' := snd (setup_coverage conf kernel floc output_loc w) in
  heap w' r = with_warn_no_data (_warn_no_data (heap w' r)) (heap w r)
  /\ (_warn_no_data (heap w' r) <> _warn_no_data (heap w r) ->
      supported kernel = true
      /\ get_cov conf w = (Returns (Some r), w)
      /\ data_suffix (heap w r) = Some SuffixTrue)
  /\ (forall p, In (FileRead p) (trace w') -> In (FileRead p) (trace w))
  /\ (forall p, In (FileRemoved p) (trace w') -> In (FileRemoved p) (trace w)).
Proof.
  assert (Hid : forall c : Coverage, c = with_warn_no_data (_warn_no_data c) c)
    by (by intros []).
  assert (Htrace : forall cmd soe w0 (e : Event),
            In e (trace (kernel_round cmd soe w0)) ->
            In e (trace w0) \/ (exists c o, e = Executed c o) \/ exists i t, e = Awaited i t).
  { intros cmd soe w0 e. unfold kernel_round.
    destruct (kc_execute cmd (remote w0) (files w0)) as [[msg_id rs] fs]. cbn.
    rewrite in_app_iff. cbn. intros [?|[<-|[<-|[]]]]; eauto. }
  assert (Hheap : forall cmd soe w0, heap (kernel_round cmd soe w0) = heap w0).
  { intros cmd soe w0. unfold kernel_round.
    by destruct (kc_execute cmd (remote w0) (files w0)) as [[msg_id rs] fs]. }
  destruct (supported kernel) eqn:Hlang.
  - rewrite setup_supported_exact by done. cbn zeta. cbn [snd].
    rewrite Hheap.
    assert (Hevents : forall w1 p,
              trace w1 = trace w ->
              (In (FileRead p)
                 (trace (kernel_round (setup_text conf output_loc w) (Some false) w1)) ->
               In (FileRead p) (trace w))
              /\ (In (FileRemoved p)
                    (trace (kernel_round (setup_text conf output_loc w) (Some false) w1)) ->
                  In (FileRemoved p) (trace w))).
    { intros w1 p Hw1. split; intros Hin; apply Htrace in Hin;
        rewrite Hw1 in Hin;
        destruct Hin as [?|[(c & o & [=])|(i & t & [=])]]; done. }
    destruct (host_recorder conf) as [r0|] eqn:Hrec.
    2:{ split; [apply Hid|]. split; [done|].
        split; intros p; by apply Hevents. }
    destruct (data_suffix (heap w r0)) as [[|s]|] eqn:Hds.
    2,3: split; [apply Hid|]; (split; [done|]); split; intros p; by apply Hevents.
    cbn [heap set_heap]. split; [|split].
    + unfold insert, fn_insert. case_decide; [subst r0|apply Hid]. reflexivity.
    + unfold insert, fn_insert. case_decide; [subst r0|done].
      intros _. split; [done|]. split; [|done]. by rewrite get_cov_run, Hrec.
    + split; intros p; by apply Hevents.
  - rewrite setup_unsupported_run by done. cbn.
    split; [apply Hid|]. split; [done|].
    split; intros p; rewrite in_app_iff; cbn; intros [?|[[=]|[]]]; done.
Qed.

(** X4. When the kernel does not become idle within 60 seconds of the
    teardown snippet, [teardown_coverage] raises the timeout and the merge is
    never reached: the world is the one the exchange with the kernel left, no
    recorder is changed and no file is read or removed by the test process. *)
Theorem teardown_timeout_skips_merge conf kernel (output_loc : option string) w :
  supported kernel = true ->
  kernel_idle _python_teardown w = false ->
  teardown_coverage conf kernel output_loc w =
    (Raises ExecutionTimeout, kernel_round _python_teardown None w)
  /\ heap (snd (teardown_coverage conf kernel output_loc w)) = heap w
  /\ forall p,
       In (FileRead p) (trace (snd (teardown_coverage conf kernel output_loc w))) \/
       In (FileRemoved p) (trace (snd (teardown_coverage conf kernel output_loc w))) ->
       In (FileRead p) (trace w) \/ In (FileRemoved p) (trace w).
Proof.
  intros Hlang Hidle. rewrite teardown_supported_exact, Hidle by done.
  split; [done|]. cbn [snd]. unfold kernel_round.
  destruct (kc_execute _ (remote w) (files w)) as [[msg_id rs] fs]. cbn.
  split; [done|]. intros p. rewrite !in_app_iff. cbn.
  intros [[?|[[=]|[[=]|[]]]]|[?|[[=]|[[=]|[]]]]]; auto.
Qed.

(** X5. The round trip of a teardown.  Under a supported language, with a
    recorder found by [get_cov] whose resolved suffix is a string [s], whose
    rules each name a path and only patterns [PathAliases.add] accepts: when
    the kernel answers in time and has left a readable data file at
    [<base>.<s>] holding [d], the update of the recorder with [d] does not
    raise and the file may be removed, the teardown returns normally, the
    dataset of the recorder is updated with [d] under the alias table, and
    the data file is gone. *)
Theorem teardown_round_trip conf kernel (output_loc : option string) r w
    (s : string) (d : CoverageData) :
  supported kernel = true ->
  get_cov conf w = (Returns (Some r), w) ->
  _make_suffix (Some r) w = (Returns (SuffixStr s), w) ->
  rules_nonempty (paths (config (heap w r))) ->
  patterns_accepted (paths (config (heap w r))) ->
  kernel_idle _python_teardown w = true ->
  stored_data (kernel_round _python_teardown None w)
    (CoverageData_new (debug (heap w r)))
    (filename (data_files (heap w r)) +:+ "." +:+ s) = Some d ->
  update_raises (data (heap w r)) d (alias_table (paths (config (heap w r)))) = false ->
  remove_refused (resolve (filename (data_files (heap w r)) +:+ "." +:+ s)) = false ->
  exists w',
    teardown_coverage conf kernel output_loc w = (Returns tt, w')
    /\ data (heap w' r) =
       data_update (data (heap w r)) d (alias_table (paths (config (heap w r))))
    /\ files w' !! resolve (filename (data_files (heap w r)) +:+ "." +:+ s) = None
    /\ trace w' =
       trace (kernel_round _python_teardown None w) ++
       [FileRead (abspath (filename (data_files (heap w r)) +:+ "." +:+ s));
        FileRemoved (filename (data_files (heap w r)) +:+ "." +:+ s)].
Proof.
  intros Hlang Hcov Hs Hne Hok Hidle Hd Hupd Hrm.
  rewrite get_cov_run in Hcov. injection Hcov as Hcov.
  rewrite teardown_supported_exact, Hidle, Hcov by done.
  set (w1 := kernel_round _python_teardown None w) in *.
  assert (Hheap : heap w1 = heap w).
  { subst w1. unfold kernel_round.
    by destruct (kc_execute _ (remote w) (files w)) as [[msg_id rs] fs]. }
  exists (merged_world r s d w1). split.
  - apply merge_readable; unfold remote_filename; rewrite ?Hheap; try done.
    + rewrite make_suffix_run in Hs. injection Hs as Hs.
      by rewrite make_suffix_run, Hheap, Hs.
    + rewrite stored_data_abspath. exact Hd.
  - cbn. rewrite fn_lookup_insert, Hheap. cbn.
    split; [done|]. split; [apply lookup_delete_eq|done].
Qed.

(** X6. Under a supported language and a kernel that answers in time, when
    [get_cov] finds no recorder, or one with an auto-generated suffix, the
    teardown returns normally and ends where the exchange with the kernel
    ended: the files are as the kernel left them, nothing is read or
    removed. *)
Theorem teardown_without_merge conf kernel (output_loc : option string) w :
  supported kernel = true ->
  kernel_idle _python_teardown w = true ->
  get_cov conf w = (Returns None, w)
  \/ (exists r, get_cov conf w = (Returns (Some r), w)
               /\ data_suffix (heap w r) = Some SuffixTrue) ->
  teardown_coverage conf kernel output_loc w =
  (Returns tt, kernel_round _python_teardown None w).
Proof.
  intros Hlang Hidle Hcov.
  rewrite teardown_supported_exact, Hidle by done.
  rewrite get_cov_run in Hcov.
  destruct Hcov as [[= ->]|(r & [= ->] & Hds)]; [reflexivity|].
  apply merge_auto. rewrite make_suffix_run.
  assert (Hheap : heap (kernel_round _python_teardown None w) = heap w).
  { unfold kernel_round.
    by destruct (kc_execute _ (remote w) (files w)) as [[msg_id rs] fs]. }
  by rewrite Hheap, Hds.
Qed.

(** X7. What the merge raises.  The [CoverageException] of a failed read
    never leaves the merge.  When the merge raises, the data file had been
    read with success and is still on disk, and the exception is the
    [IndexError] of a rule that names no path, the [CoverageException] of a
    pattern [PathAliases.add] rejects (no recorder changed in these two
    cases), the [CoverageException] of the update of the recorder, or the
    [OSError] of a removal the system refuses after the update went
    through. *)
Theorem merge_raises_after_read (ocov : option Ref) w (e : Exn) (w' : World) :
  _merge_nbval_coverage_data ocov w = (Raises e, w') ->
  exists r s d,
    ocov = Some r
    /\ _make_suffix (Some r) w = (Returns (SuffixStr s), w)
    /\ stored_data w (CoverageData_new (debug (heap w r)))
         (remote_filename (heap w r) s) = Some d
    /\ files w' = files w
    /\ trace w' = trace w ++ [FileRead (abspath (remote_filename (heap w r) s))]
    /\ ((e = IndexError
         /\ has_empty_rule (paths (config (heap w r)))
         /\ heap w' = heap w)
        \/ (e = CoverageException
            /\ ~ patterns_accepted (paths (config (heap w r)))
            /\ heap w' = heap w)
        \/ (e = CoverageException
            /\ rules_nonempty (paths (config (heap w r)))
            /\ patterns_accepted (paths (config (heap w r)))
            /\ update_raises (data (heap w r)) d
                 (alias_table (paths (config (heap w r)))) = true
            /\ w' = updated_world r s d w)
        \/ (e = OSError
            /\ update_raises (data (heap w r)) d
                 (alias_table (paths (config (heap w r)))) = false
            /\ remove_refused (resolve (remote_filename (heap w r) s)) = true
            /\ w' = updated_world r s d w)).
Proof.
  destruct ocov as [r|]; [|discriminate].
  destruct (merge_classified r w)
    as [[_ ->]|(s & Hs & [[_ ->]|(d & Hd & Hcases)])]; try discriminate.
  intros Hrun. exists r, s, d. do 3 (split; [done|]).
  destruct Hcases
    as [(e0 & Hm & Hwhy)
       |(Hne & Hok & [[Hupd Hm]|[(Hupd & Hrm & Hm)|(_ & _ & Hm)]])];
    rewrite Hm in Hrun; try discriminate; injection Hrun as <- <-.
  - do 2 (split; [done|]).
    destruct Hwhy as [[-> Hex]|[-> Hnot]]; [by left|by right; left].
  - do 2 (split; [done|]). right. right. by left.
  - do 2 (split; [done|]). right. right. by right.
Qed.

(** X8. The frame of the merge on the recorders.  Whatever the outcome, every
    recorder is as before up to its dataset, and only the dataset of the
    recorder handed to the merge can change. *)
Theorem merge_frame_recorders (ocov : option Ref) w r :
  let w' := snd (_merge_nbval_coverage_data ocov w) in
  heap w' r = with_data (data (heap w' r)) (heap w r)
  /\ (data (heap w' r) <> data (heap w r) -> ocov = Some r).
Proof.
  assert (Hid : forall c : Coverage, c = with_data (data c) c) by (by intros []).
  destruct ocov as [r0|]; [|by split; [apply Hid|]].
  destruct (merge_outcomes r0 w)
    as [[_ ->]|(s & _ & o & w' & -> & [->|(d & [->| ->])])];
    cbn; try (by split; [apply Hid|]).
  all: unfold insert, fn_insert; case_decide; [subst r0|by split; [apply Hid|]].
  all: split; reflexivity.
Qed.

(** X9. The frame of the merge on the files.  A file is as before, or it is
    gone and it is the data file [<base>.<suffix>] of the recorder, which was
    read with success and merged: the merge removes no other file and removes
    none it could not read. *)
Theorem merge_frame_files (ocov : option Ref) w (key : string) :
  let w' := snd (_merge_nbval_coverage_data ocov w) in
  files w' !! key = files w !! key
  \/ (files w' !! key = None
      /\ exists r s d,
           ocov = Some r
           /\ _make_suffix (Some r) w = (Returns (SuffixStr s), w)
           /\ key = resolve (remote_filename (heap w r) s)
           /\ stored_data w (CoverageData_new (debug (heap w r)))
                (remote_filename (heap w r) s) = Some d
           /\ _merge_nbval_coverage_data ocov w = (Returns tt, merged_world r s d w)).
Proof.
  destruct ocov as [r|]; [|by left].
  destruct (merge_classified r w)
    as [[_ ->]|(s & Hs & [[_ ->]|(d & Hd & Hcases)])]; try (by left).
  destruct Hcases
    as [(e0 & -> & _)
       |(_ & _ & [[_ ->]|[(_ & _ & ->)|(_ & _ & Hm)]])]; try (by left).
  rewrite Hm. cbn.
  destruct (decide (key = resolve (remote_filename (heap w r) s))) as [->|Hne].
  - right. split; [apply lookup_delete_eq|]. by exists r, s, d.
  - left. by apply lookup_delete_ne.
Qed.

Lemma kernel_round_heap (cmd : string) (stop_on_error : option bool) w :
  heap (kernel_round cmd stop_on_error w) = heap w.
Proof.
  unfold kernel_round.
  by destruct (kc_execute cmd (remote w) (files w)) as [[msg_id rs] fs].
Qed.

(** X10. The alias loop.  It changes nothing in the world.  When every rule
    names a path and every later path of a rule is a pattern
    [PathAliases.add] accepts, the loop returns the table extended, in the
    order of the rules and of their paths, by one pair (pattern, first path)
    for every later path of every rule; a rule of one path adds nothing.
    Otherwise it raises at the first rule it cannot pass, whatever follows:
    [IndexError] when that rule names no path, [CoverageException] at its
    first rejected pattern. *)
Theorem alias_loop (values : list (list string)) (al : list (string * string)) w :
  (Forall rule_accepted values ->
   add_aliases values al w = (Returns (al ++ alias_pairs values), w))
  /\ (forall good rest,
        values = good ++ [] :: rest ->
        Forall rule_accepted good ->
        add_aliases values al w = (Raises IndexError, w))
  /\ (forall good result oks p more rest,
        values = good ++ (result :: oks ++ p :: more) :: rest ->
        Forall rule_accepted good ->
        Forall (fun pattern => pattern_rejected pattern = false) oks ->
        pattern_rejected p = true ->
        add_aliases values al w = (Raises CoverageException, w)).
Proof.
  split; [by apply add_aliases_ok|]. split.
  - intros good rest -> Hgood. rewrite add_aliases_app by done. reflexivity.
  - intros good result oks p more rest -> Hgood Hoks Hp.
    rewrite add_aliases_app by done. cbn. unfold bind.
    rewrite add_patterns_rejected by done. reflexivity.
Qed.

(** X11. One session.  Under a supported language, with a recorder found by
    [get_cov] whose resolved suffix is a string [s]: setup leaves the
    recorders alone and names [s] as [data_suffix] in the command it submits;
    a teardown that follows, with a kernel that answers, reads the data at
    [<base>.<s>], the same suffix, before anything else. *)
Theorem session_suffix_agreement conf kernel floc (output_loc output_loc' : option string)
    r w (s : string) :
  supported kernel = true ->
  get_cov conf w = (Returns (Some r), w) ->
  _make_suffix (Some r) w = (Returns (SuffixStr s), w) ->
  kernel_idle _python_teardown (snd (setup_coverage conf kernel floc output_loc w)) = true ->
  snd (setup_coverage conf kernel floc output_loc w) =
    kernel_round
      (setup_command (abspath (data_file (config (heap w r))))
         (cov_source (opts conf)) (cov_config (opts conf)) (PyStr s))
      (Some false) w
  /\ exists o w2 rest,
       teardown_coverage conf kernel output_loc'
         (snd (setup_coverage conf kernel floc output_loc w)) = (o, w2)
       /\ trace w2 =
          trace (kernel_round _python_teardown None
                   (snd (setup_coverage conf kernel floc output_loc w)))
          ++ FileRead (abspath (filename (data_files (heap w r)) +:+ "." +:+ s)) :: rest.
Proof.
  intros Hlang Hcov Hs.
  rewrite get_cov_run in Hcov. injection Hcov as Hcov.
  rewrite make_suffix_run in Hs. injection Hs as Hs.
  rewrite setup_supported_exact by done. cbn zeta. cbn [snd].
  unfold setup_text. rewrite Hcov.
  assert (Hw1 : match data_suffix (heap w r) with
                | Some SuffixTrue =>
                    set_heap (<[r := with_warn_no_data false (heap w r)]> (heap w)) w
                | _ => w
                end = w).
  { destruct (data_suffix (heap w r)) as [[|s0]|]; done. }
  rewrite Hw1, Hs. cbn [Suffix_to_PyVal].
  set (w1 := kernel_round _ (Some false) w).
  intros Hidle. split; [done|].
  rewrite teardown_supported_exact, Hidle, Hcov by done.
  set (w2 := kernel_round _python_teardown None w1).
  assert (Hheap : heap w2 = heap w).
  { subst w2 w1. by rewrite !kernel_round_heap. }
  assert (Hs2 : _make_suffix (Some r) w2 = (Returns (SuffixStr s), w2)).
  { by rewrite make_suffix_run, Hheap, Hs. }
  destruct (merge_outcomes r w2)
    as [[Hauto _]|(s' & Hs' & o & w3 & -> & Hcases)]; [congruence|].
  assert (s' = s) as -> by congruence.
  exists o, w3. destruct Hcases as [->|(d & [->| ->])].
  - exists []. split; [reflexivity|]. cbn. unfold remote_filename.
    by rewrite Hheap.
  - exists []. split; [reflexivity|]. cbn. unfold remote_filename.
    by rewrite Hheap.
  - eexists [_]. split; [reflexivity|]. cbn. unfold remote_filename.
    by rewrite Hheap.
Qed.

(** X12. The merge can be repeated.  After a merge that returned normally,
    for whatever reason (no recorder, auto-generated suffix, no readable
    file, or a merge done), a second merge returns normally and changes no
    recorder and no file. *)
Theorem merge_again (ocov : option Ref) w (w1 : World) :
  _merge_nbval_coverage_data ocov w = (Returns tt, w1) ->
  exists w2,
    _merge_nbval_coverage_data ocov w1 = (Returns tt, w2)
    /\ heap w2 = heap w1
    /\ files w2 = files w1.
Proof.
  destruct ocov as [r|]; [|intros [= <-]; by exists w].
  destruct (merge_classified r w)
    as [[Hauto ->]|(s & Hs & [[Hd ->]|(d & Hd & _)])].
  3:{ intros Hrun. rewrite <- stored_data_abspath in Hd.
      rewrite (merge_returns_merged r w s d w1 Hs Hd Hrun).
      eexists. split; [|split].
      - apply (merge_unreadable r _ s).
        + by apply merged_world_suffix.
        + rewrite stored_data_abspath. apply merged_world_unreadable.
      - reflexivity.
      - reflexivity. }
  all: intros [= <-].
  - exists w. split; [|done]. apply merge_auto. by rewrite make_suffix_run, Hauto.
  - eexists. split; [|split].
    + apply (merge_unreadable r _ s).
      * rewrite make_suffix_run in Hs. injection Hs as Hs.
        rewrite make_suffix_run. cbn [heap emit]. by rewrite Hs.
      * rewrite stored_data_abspath. exact Hd.
    + reflexivity.
    + reflexivity.
Qed.

(** X13. The exceptions of [teardown_coverage].  It raises only under a
    supported language: the timeout, when the kernel does not become idle in
    time, and then the merge is not reached; or, when the kernel answered,
    what the merge into the recorder [get_cov] finds raises after it has read
    the data file: [IndexError], [CoverageException] or [OSError]. *)
Theorem teardown_raises conf kernel (output_loc : option string) w (e : Exn)
    (w' : World) :
  teardown_coverage conf kernel output_loc w = (Raises e, w') ->
  supported kernel = true
  /\ ((e = ExecutionTimeout
       /\ kernel_idle _python_teardown w = false
       /\ w' = kernel_round _python_teardown None w)
      \/ (kernel_idle _python_teardown w = true
          /\ (e = IndexError \/ e = CoverageException \/ e = OSError)
          /\ exists r s d,
               get_cov conf w = (Returns (Some r), w)
               /\ _make_suffix (Some r) w = (Returns (SuffixStr s), w)
               /\ stored_data (kernel_round _python_teardown None w)
                    (CoverageData_new (debug (heap w r)))
                    (remote_filename (heap w r) s) = Some d
               /\ _merge_nbval_coverage_data (Some r)
                    (kernel_round _python_teardown None w) = (Raises e, w'))).
Proof.
  destruct (supported kernel) eqn:Hlang.
  2:{ rewrite teardown_unsupported_run by done. discriminate. }
  rewrite teardown_supported_exact by done.
  destruct (kernel_idle _python_teardown w) eqn:Hidle.
  2:{ intros [= <- <-]. split; [done|]. by left. }
  destruct (host_recorder conf) as [r|] eqn:Hrec; [|discriminate].
  intros Hrun. split; [done|]. right. split; [done|].
  destruct (merge_classified r (kernel_round _python_teardown None w))
    as [[_ Hm]|(s & Hs & [[_ Hm]|(d & Hd & Hcases)])];
    try (rewrite Hm in Hrun; discriminate).
  rewrite kernel_round_heap in Hd.
  rewrite make_suffix_run, kernel_round_heap in Hs. injection Hs as Hs.
  assert (He : e = IndexError \/ e = CoverageException \/ e = OSError).
  { destruct Hcases
      as [(e0 & Hm & Hwhy)
         |(_ & _ & [[_ Hm]|[(_ & _ & Hm)|(_ & _ & Hm)]])];
      rewrite Hm in Hrun; try discriminate; injection Hrun as <- _; auto.
    destruct Hwhy as [[-> _]|[-> _]]; auto. }
  split; [done|]. exists r, s, d. rewrite get_cov_run, Hrec, make_suffix_run, Hs.
  done.
Qed.

End Calls.

(** ** The further properties on the concrete runtime *)

Section CallExamples.

#[local] Existing Instances demo_runtime demo_coverage demo_kernel_channel.

Lemma alias_loop_witness :
  add_aliases [["/src"; "/remote/src"; "/ci/src"]; ["/lib"]] [] demo_world_ok =
    (Returns [("/remote/src", "/src"); ("/ci/src", "/src")], demo_world_ok)
  /\ add_aliases [["/src"; "/remote/src"]; []; ["/lib"; "/l*"]] [] demo_world_ok =
     (Raises IndexError, demo_world_ok)
  /\ add_aliases [["/src"; "/remote/src"; "/ci/*"; "/x"]; []] [] demo_world_ok =
     (Raises CoverageException, demo_world_ok).
Proof.
  assert (Hfirst : rule_accepted ["/src"; "/remote/src"]).
  { split; [discriminate|]. repeat constructor. }
  split; [|split].
  - apply (proj1 (alias_loop [["/src"; "/remote/src"; "/ci/src"]; ["/lib"]] []
                    demo_world_ok)).
    repeat constructor; discriminate.
  - apply (proj1 (proj2 (alias_loop [["/src"; "/remote/src"]; []; ["/lib"; "/l*"]] []
                           demo_world_ok))
             [["/src"; "/remote/src"]] [["/lib"; "/l*"]]); [reflexivity|].
    by constructor.
  - apply (proj2 (proj2 (alias_loop [["/src"; "/remote/src"; "/ci/*"; "/x"]; []] []
                           demo_world_ok))
             [] "/src" ["/remote/src"] "/ci/*" ["/x"] [[]]);
      [reflexivity|constructor|repeat constructor|reflexivity].
Defined.

Lemma merge_raises_after_read_witness :
  _merge_nbval_coverage_data (Some 0) demo_world_arcs =
    (Raises CoverageException,
     @updated_world demo_runtime demo_coverage demo_kernel_channel 0 "nbval" ["#arcs"]
       demo_world_arcs)
  /\ files (@updated_world demo_runtime demo_coverage demo_kernel_channel 0 "nbval"
              ["#arcs"] demo_world_arcs) = files demo_world_arcs
  /\ files demo_world_arcs !! "/work/.coverage.nbval" = Some "!#arcs".
Proof.
  assert (Hrun : _merge_nbval_coverage_data (Some 0) demo_world_arcs =
                 (Raises CoverageException,
                  @updated_world demo_runtime demo_coverage demo_kernel_channel
                    0 "nbval" ["#arcs"] demo_world_arcs)).
  { vm_compute. reflexivity. }
  destruct (merge_raises_after_read (Some 0) demo_world_arcs CoverageException _ Hrun)
    as (r & s & d & _ & _ & _ & Hfiles & _).
  split; [exact Hrun|]. split; [exact Hfiles|reflexivity].
Defined.

Lemma merge_again_witness :
  exists w2,
    _merge_nbval_coverage_data (Some 0)
      (emit (FileRead "/work/.coverage.nbval") demo_world_corrupt) = (Returns tt, w2)
    /\ heap w2 = heap demo_world_corrupt
    /\ files w2 = files demo_world_corrupt.
Proof.
  exact (merge_again (Some 0) demo_world_corrupt
           (emit (FileRead "/work/.coverage.nbval") demo_world_corrupt) eq_refl).
Defined.

End CallExamples.

Section SessionExamples.

#[local] Existing Instances demo_runtime demo_coverage demo_kernel_scripted.

Lemma setup_raises_only_timeout_witness :
  fst (setup_coverage demo_config {| language := "python3" |} None None
         (demo_session false None [])) = Raises ExecutionTimeout
  /\ fst (setup_coverage demo_config {| language := "python3" |} None None
            (demo_session true None [])) <> Raises ExecutionTimeout.
Proof.
  split.
  - apply (proj2 (setup_raises_only_timeout demo_config {| language := "python3" |}
                    None None (demo_session false None []))).
    split; reflexivity.
  - intros Hraise.
    apply (proj2 (setup_raises_only_timeout demo_config {| language := "python3" |}
                    None None (demo_session true None []))) in Hraise.
    destruct Hraise as [_ Hidle]. discriminate Hidle.
Defined.

Lemma teardown_timeout_skips_merge_witness :
  teardown_coverage demo_config {| language := "python3" |} None
    (demo_session false None []) =
  (Raises ExecutionTimeout, kernel_round _python_teardown None (demo_session false None []))
  /\ trace (snd (teardown_coverage demo_config {| language := "python3" |} None
                  (demo_session false None []))) =
     [Executed _python_teardown None; Awaited 0 60].
Proof.
  destruct (teardown_timeout_skips_merge demo_config {| language := "python3" |} None
              (demo_session false None []) eq_refl eq_refl) as (Hrun & _).
  split; [exact Hrun|]. rewrite Hrun. reflexivity.
Defined.

Lemma teardown_round_trip_witness :
  exists w',
    teardown_coverage demo_config {| language := "python3" |} None
      (demo_session true None [("src", ["/src"; "/remote/src"])]) = (Returns tt, w')
    /\ data (heap w' 0) = ["host.py"; "/src"]
    /\ files w' !! "/work/.coverage.nbval" = None
    /\ trace w' =
       [Executed _python_teardown None; Awaited 0 60;
        FileRead "/work/.coverage.nbval"; FileRemoved "/work/.coverage.nbval"].
Proof.
  assert (Hrules : rules_nonempty
            (paths (config (heap (demo_session true None
                                    [("src", ["/src"; "/remote/src"])]) 0)))).
  { repeat constructor. discriminate. }
  assert (Hpatterns : patterns_accepted
            (paths (config (heap (demo_session true None
                                    [("src", ["/src"; "/remote/src"])]) 0)))).
  { repeat constructor. }
  exact (teardown_round_trip demo_config {| language := "python3" |} None 0
           (demo_session true None [("src", ["/src"; "/remote/src"])])
           "nbval" ["/remote/src"] eq_refl eq_refl eq_refl Hrules Hpatterns
           eq_refl eq_refl eq_refl eq_refl).
Defined.

Lemma teardown_without_merge_witness :
  teardown_coverage demo_config {| language := "python3" |} None
    (demo_session true (Some SuffixTrue) []) =
    (Returns tt,
     kernel_round _python_teardown None (demo_session true (Some SuffixTrue) []))
  /\ teardown_coverage demo_config_plain {| language := "python3" |} None
       (demo_session true None []) =
     (Returns tt, kernel_round _python_teardown None (demo_session true None [])).
Proof.
  split.
  - exact (teardown_without_merge demo_config {| language := "python3" |} None
             (demo_session true (Some SuffixTrue) []) eq_refl eq_refl
             (or_intror (ex_intro _ 0 (conj eq_refl eq_refl)))).
  - exact (teardown_without_merge demo_config_plain {| language := "python3" |} None
             (demo_session true None []) eq_refl eq_refl (or_introl eq_refl)).
Defined.

Lemma session_suffix_agreement_witness :
  snd (setup_coverage demo_config {| language := "python3" |} None None
         (demo_session true (Some (SuffixStr "par")) [])) =
    kernel_round
      (setup_command "/work/.coverage" (PyList ["pkg"]) (PyStr ".coveragerc")
         (PyStr "par.nbval"))
      (Some false) (demo_session true (Some (SuffixStr "par")) [])
  /\ exists o w2 rest,
       teardown_coverage demo_config {| language := "python3" |} None
         (snd (setup_coverage demo_config {| language := "python3" |} None None
                 (demo_session true (Some (SuffixStr "par")) []))) = (o, w2)
       /\ trace w2 =
          trace (kernel_round _python_teardown None
                   (snd (setup_coverage demo_config {| language := "python3" |} None None
                           (demo_session true (Some (SuffixStr "par")) []))))
          ++ FileRead "/work/.coverage.par.nbval" :: rest.
Proof.
  exact (session_suffix_agreement demo_config {| language := "python3" |} None None None
           0 (demo_session true (Some (SuffixStr "par")) []) "par.nbval"
           eq_refl eq_refl eq_refl eq_refl).
Defined.

Lemma teardown_raises_witness :
  supported {| language := "python3" |} = true
  /\ ((ExecutionTimeout = ExecutionTimeout
       /\ kernel_idle _python_teardown (demo_session false None []) = false
       /\ kernel_round _python_teardown None (demo_session false None []) =
          kernel_round _python_teardown None (demo_session false None []))
      \/ (kernel_idle _python_teardown (demo_session false None []) = true
          /\ (ExecutionTimeout = IndexError \/ ExecutionTimeout = CoverageException
              \/ ExecutionTimeout = OSError)
          /\ exists r s d,
               get_cov demo_config (demo_session false None []) =
                 (Returns (Some r), demo_session false None [])
               /\ _make_suffix (Some r) (demo_session false None []) =
                  (Returns (SuffixStr s), demo_session false None [])
               /\ stored_data (kernel_round _python_teardown None
                                 (demo_session false None []))
                    (CoverageData_new (debug (heap (demo_session false None []) r)))
                    (remote_filename (heap (demo_session false None []) r) s) = Some d
               /\ _merge_nbval_coverage_data (Some r)
                    (kernel_round _python_teardown None (demo_session false None [])) =
                  (Raises ExecutionTimeout,
                   kernel_round _python_teardown None (demo_session false None [])))).
Proof.
  exact (teardown_raises demo_config {| language := "python3" |} None
           (demo_session false None []) ExecutionTimeout
           (kernel_round _python_teardown None (demo_session false None [])) eq_refl).
Defined.

End SessionExamples.
